(** * FreshGuard: reading normalisation and the alert engine

    A shallow embedding of [services/sensor_service.py],
    [services/alert_service.py], the alert step of [tasks.py] and of
    [app.py], and the thresholds of [config.py].

    Python floats are IEEE 754 binary64 values: they are modelled by the
    standard library's [spec_float] at precision 53 and maximal exponent
    1024, so that NaN, the infinities and the signed zeros are all there.
    Instants ([datetime]) are integers counting microseconds.  The tables
    [sensor_readings] and [alerts] are lists of rows in insertion order, the
    Redis cache is a finite map of entries with the instant at which each
    expires, and every use of the notifier is kept in a log so that theorems
    can speak about it.  A commit can fail: [save_reading] raises when the
    status of the payload cannot be bound to its column. *)

From Stdlib Require Import ZArith Bool Lia Ascii.
From Stdlib Require Import Floats.PrimFloat Floats.SpecFloat Floats.FloatOps.
From stdpp Require Import base option list strings gmap sorting.

Local Open Scope Z_scope.
Local Open Scope string_scope.
Local Open Scope list_scope.

(** ** Python floats *)

Abbreviation pyfloat := spec_float.

Definition zero : pyfloat := S754_zero false.
Definition one : pyfloat := Eval vm_compute in Prim2SF 1%float.

(** [x <= y], [x < y], [x == y] and [x / y] on floats. *)
Definition fle (x y : pyfloat) : bool := SFleb x y.
Definition flt (x y : pyfloat) : bool := SFltb x y.
Definition feq (x y : pyfloat) : bool := SFeqb x y.
Definition fdiv (x y : pyfloat) : pyfloat := SFdiv prec emax x y.

Definition is_nan (x : pyfloat) : bool :=
  match x with S754_nan => true | _ => false end.

(** [math.isfinite]. *)
Definition is_finite (x : pyfloat) : bool :=
  match x with
  | S754_zero _ | S754_finite _ _ _ => true
  | S754_infinity _ | S754_nan => false
  end.

(** [float(n)] for a Python [int]: the nearest double, ties to even;
    [None] stands for the [OverflowError] raised when the integer is too
    large for a double. *)
Definition float_of_int (n : Z) : option pyfloat :=
  match binary_normalize prec emax n 0 false with
  | S754_infinity _ => None
  | f => Some f
  end.

(** ** Values of a decoded JSON payload *)

#[warnings="-register-all"]
Inductive pyval : Type :=
| PyNone
| PyBool (b : bool)
| PyInt (n : Z)
| PyFloat (f : pyfloat)
| PyStr (s : string)
| PyList (l : list pyval)
| PyDict (d : list (string * pyval)).

(** The exceptions that [float(value)] can raise, and the error with which
    SQLAlchemy answers a parameter that the database driver cannot bind. *)
Inductive pyexc : Type := ValueError | TypeError | OverflowError | DBAPIError.

Inductive result (A : Type) : Type :=
| Ok (a : A)
| Raise (e : pyexc).
Arguments Ok {A} a.
Arguments Raise {A} e.

(** Sequencing of computations that may raise: the first exception wins. *)
#[global] Instance result_ret : MRet result := fun _ a => Ok a.
#[global] Instance result_bind : MBind result := fun _ _ k r =>
  match r with
  | Ok a => k a
  | Raise e => Raise e
  end.

(** ** [config.py] *)

Record Settings := {
  RATIO_FRESH : pyfloat;
  RATIO_WARNING : pyfloat;
  TWILIO_ACCOUNT_SID : option string;
  TWILIO_AUTH_TOKEN : option string;
  TWILIO_PHONE_NUMBER : option string;
  WEBHOOK_URL : string
}.

(** The doubles nearest to 0.8 and to 0.5. *)
Definition f0_8 : pyfloat :=
  Eval vm_compute in Prim2SF 0x1.999999999999ap-1%float.
Definition f0_5 : pyfloat := Eval vm_compute in Prim2SF 0.5%float.

(** The defaults of the class [Settings]. *)
Definition default_settings : Settings := {|
  RATIO_FRESH := f0_8;
  RATIO_WARNING := f0_5;
  TWILIO_ACCOUNT_SID := None;
  TWILIO_AUTH_TOKEN := None;
  TWILIO_PHONE_NUMBER := None;
  WEBHOOK_URL := "https://twilio-call-jxu9.onrender.com/voice"
|}.

(** ** [models.py] *)

(** The dictionary returned by [normalize_reading]. *)
Record ReadingData := {
  rd_device_id : string;
  rd_ro : pyfloat;
  rd_rs : pyfloat;
  rd_ratio : pyfloat;
  rd_vout : pyfloat;
  rd_status : pyval;
  rd_timestamp : Z
}.

(** A row of the table [sensor_readings]. *)
Record SensorReading := {
  sr_id : Z;
  sr_timestamp : Z;
  sr_device_id : string;
  sr_ro : pyfloat;
  sr_rs : pyfloat;
  sr_ratio : pyfloat;
  sr_vout : pyfloat;
  sr_status : pyval;
  sr_is_alert : bool
}.

(** A row of the table [alerts]; [alert_id] is the column [id]. *)
Record Alert := {
  alert_id : Z;
  timestamp : Z;
  device_id : string;
  alert_type : string;
  ratio_value : pyfloat;
  phone_number : option string;
  call_sid : option string;
  is_resolved : bool
}.

Definition set_call_sid (sid : option string) (a : Alert) : Alert :=
  {| alert_id := alert_id a; timestamp := timestamp a;
     device_id := device_id a; alert_type := alert_type a;
     ratio_value := ratio_value a; phone_number := phone_number a;
     call_sid := sid; is_resolved := is_resolved a |}.

Definition set_alert_id (i : Z) (a : Alert) : Alert :=
  {| alert_id := i; timestamp := timestamp a;
     device_id := device_id a; alert_type := alert_type a;
     ratio_value := ratio_value a; phone_number := phone_number a;
     call_sid := call_sid a; is_resolved := is_resolved a |}.

Definition set_is_resolved (b : bool) (a : Alert) : Alert :=
  {| alert_id := alert_id a; timestamp := timestamp a;
     device_id := device_id a; alert_type := alert_type a;
     ratio_value := ratio_value a; phone_number := phone_number a;
     call_sid := call_sid a; is_resolved := b |}.

(** What the notifier did: [send_voice_alert] was entered, and
    [twilio_client.calls.create] was called. *)
Inductive event : Type :=
| VoiceAlert (phone_number0 context : string)
| TwilioCall (to : string) (from_ : option string) (url : string).

(** An entry of the Redis cache: the reading, and the instant at which the
    time to live of its [setex] is over. *)
Record CacheEntry := {
  ce_value : ReadingData;
  ce_expires : Z
}.

(** ** The world the services act on

    The two tables with their [id] sequences, the Redis cache, and the log
    of the notifier.  The sessions of the services are taken to be usable:
    what a failed commit leaves in a session until its rollback is not part
    of the world. *)
Record World := {
  sensor_readings : list SensorReading;
  reading_seq : Z;
  alerts : list Alert;
  alert_seq : Z;
  redis : gmap string CacheEntry;
  log : list event
}.

Definition empty_world : World := {|
  sensor_readings := []; reading_seq := 1;
  alerts := []; alert_seq := 1;
  redis := ∅; log := []
|}.

(** Computations on the world. *)
Definition Db (A : Type) : Type := World -> A * World.

#[global] Instance db_ret : MRet Db := fun _ a w => (a, w).
#[global] Instance db_bind : MBind Db := fun _ _ k m w =>
  let '(a, w') := m w in k a w'.

Definition run {A} (m : Db A) (w : World) : World := snd (m w).
Definition value {A} (m : Db A) (w : World) : A := fst (m w).

(** [session.add(alert); session.commit(); session.refresh(alert)]. *)
Definition add_alert (a : Alert) : Db Alert := fun w =>
  let a' := set_alert_id (alert_seq w) a in
  (a', {| sensor_readings := sensor_readings w;
          reading_seq := reading_seq w;
          alerts := alerts w ++ [a'];
          alert_seq := alert_seq w + 1;
          redis := redis w; log := log w |}).

(** The same for a row of [sensor_readings]. *)
Definition add_reading (r : SensorReading) : Db SensorReading := fun w =>
  let r' := {| sr_id := reading_seq w; sr_timestamp := sr_timestamp r;
               sr_device_id := sr_device_id r; sr_ro := sr_ro r;
               sr_rs := sr_rs r; sr_ratio := sr_ratio r;
               sr_vout := sr_vout r; sr_status := sr_status r;
               sr_is_alert := sr_is_alert r |} in
  (r', {| sensor_readings := sensor_readings w ++ [r'];
          reading_seq := reading_seq w + 1;
          alerts := alerts w; alert_seq := alert_seq w;
          redis := redis w; log := log w |}).

(** [timedelta(seconds=1)]. *)
Definition microseconds_per_second : Z := 1000000.

(** [redis_client.setex(key, seconds, value)] at the instant [now]: the
    entry lives for [seconds] seconds. *)
Definition redis_setex (key : string) (seconds : Z) (v : ReadingData)
    (now : Z) : Db unit := fun w =>
  (tt, {| sensor_readings := sensor_readings w;
          reading_seq := reading_seq w;
          alerts := alerts w; alert_seq := alert_seq w;
          redis := <[key := {| ce_value := v;
                               ce_expires :=
                                 now + seconds * microseconds_per_second |}]>
                     (redis w);
          log := log w |}).

(** [redis_client.get(key)] at the instant [now]: an entry whose time to
    live is over is gone. *)
Definition redis_get (key : string) (now : Z) : Db (option ReadingData) :=
  fun w =>
  (match redis w !! key with
   | Some entry =>
       if (now <? ce_expires entry)%Z then Some (ce_value entry) else None
   | None => None
   end, w).

(** An update of every row of [alerts], committed. *)
Definition update_alerts (f : Alert -> Alert) : Db unit := fun w =>
  (tt, {| sensor_readings := sensor_readings w;
          reading_seq := reading_seq w;
          alerts := f <$> alerts w; alert_seq := alert_seq w;
          redis := redis w; log := log w |}).

(** One more event in the log. *)
Definition log_event (ev : event) : Db unit := fun w =>
  (tt, {| sensor_readings := sensor_readings w;
          reading_seq := reading_seq w;
          alerts := alerts w; alert_seq := alert_seq w;
          redis := redis w; log := log w ++ [ev] |}).

(** The truth value of an [Optional[str]]: [None] and the empty string are
    false. *)
Definition truthy (o : option string) : bool :=
  match o with
  | None => false
  | Some s => negb (String.eqb s "")
  end.

(** [twilio_client.calls.create(to, from_, url)]: the [sid] of the call, or
    [None] when it raises. *)
Definition TwilioClient : Type :=
  string -> option string -> string -> option string.

Record AlertService := { twilio_client : option TwilioClient }.

(** What the task [collect_device_data] returns. *)
Inductive task_result : Type :=
| Success (ratio : pyfloat)
| Error.

(** The three labels of the dashboard's status badge. *)
Inductive badge : Type := SPOILED | WARNING | FRESH.

(** ** [services/sensor_service.py] *)

(** The dictionary that [get_latest_reading] and [get_readings_history]
    build from a row of [sensor_readings]: its columns but [id]. *)
Record ReadingRow := {
  rr_timestamp : Z;
  rr_device_id : string;
  rr_ro : pyfloat;
  rr_rs : pyfloat;
  rr_ratio : pyfloat;
  rr_vout : pyfloat;
  rr_status : pyval;
  rr_is_alert : bool
}.

Definition row_dict (r : SensorReading) : ReadingRow :=
  {| rr_timestamp := sr_timestamp r;
     rr_device_id := sr_device_id r;
     rr_ro := sr_ro r;
     rr_rs := sr_rs r;
     rr_ratio := sr_ratio r;
     rr_vout := sr_vout r;
     rr_status := sr_status r;
     rr_is_alert := sr_is_alert r |}.

(** A reading as the dashboard holds it: the dictionary of the normalizer,
    fresh or decoded from the cache, or the dictionary of a row. *)
Inductive reading_dict : Type :=
| PlainReading (d : ReadingData)
| RowReading (r : ReadingRow).

(** What the task [send_daily_report] returns, but for the error of a
    failing database. *)
Inductive report_result : Type :=
| NoData
| Report (device_id0 date : string) (readings_count : nat)
         (avg_ratio min_ratio max_ratio : pyfloat) (alert_count : nat).

(** The order of [order_by(SensorReading.timestamp.desc())]. *)
Definition newest_first (r1 r2 : SensorReading) : Prop :=
  sr_timestamp r2 <= sr_timestamp r1.

#[global] Instance newest_first_dec : RelDecision newest_first :=
  fun r1 r2 => Z_le_dec (sr_timestamp r2) (sr_timestamp r1).

(** [s.rstrip("/")]. *)
Fixpoint rstrip_slash (s : string) : string :=
  match s with
  | EmptyString => EmptyString
  | String c s' =>
      match rstrip_slash s' with
      | EmptyString =>
          if Ascii.eqb c "/"%char then EmptyString else String c EmptyString
      | r => String c r
      end
  end.

(** The builtins [min] and [max] on a list of floats: the first element
    stays until a later one is smaller, or greater; [None] for the
    [ValueError] of an empty list. *)
Definition py_min (l : list pyfloat) : option pyfloat :=
  match l with
  | [] => None
  | x :: l' =>
      Some (fold_left (fun cur item => if flt item cur then item else cur)
                      l' x)
  end.

Definition py_max (l : list pyfloat) : option pyfloat :=
  match l with
  | [] => None
  | x :: l' =>
      Some (fold_left (fun cur item => if flt cur item then item else cur)
                      l' x)
  end.

(** [timedelta(hours=1)] and [timedelta(days=1)]. *)
Definition microseconds_per_hour : Z := 3600000000.
Definition microseconds_per_day : Z := 86400000000.

Section Services.

(** The module-level [settings] of [config.py]. *)
Variable settings : Settings.

(** [float(s)] for a string [s]: the number it spells, or [None] for the
    [ValueError] of a string that spells none. *)
Variable float_of_str : string -> option pyfloat.

(** The builtin [float(value)]. *)
Definition py_float (value : pyval) : result pyfloat :=
  match value with
  | PyNone => Raise TypeError
  | PyBool b => Ok (if b then one else zero)
  | PyInt n =>
      match float_of_int n with
      | Some f => Ok f
      | None => Raise OverflowError
      end
  | PyFloat f => Ok f
  | PyStr s =>
      match float_of_str s with
      | Some f => Ok f
      | None => Raise ValueError
      end
  | PyList _ | PyDict _ => Raise TypeError
  end.

(** [safe_float(value, default=0.0)]: only [ValueError] and [TypeError]
    are caught. *)
Definition safe_float (value : pyval) (default : pyfloat) : result pyfloat :=
  match value with
  | PyNone => Ok default
  | _ =>
      match py_float value with
      | Ok f => Ok f
      | Raise ValueError | Raise TypeError => Ok default
      | Raise e => Raise e
      end
  end.

(** [raw_data.get(key, default)]. *)
Definition get (raw_data : gmap string pyval) (key : string)
    (default : pyval) : pyval :=
  match raw_data !! key with
  | Some v => v
  | None => default
  end.

(** The ratio chosen by [normalize_reading] once the fields are floats. *)
Definition choose_ratio (ro rs ratio : pyfloat) : pyfloat :=
  if feq ratio zero && flt zero ro then fdiv rs ro else ratio.

(** [normalize_reading(raw_data, device_id)]; [now] is what
    [datetime.utcnow()] returns.  The fields are coerced in the order in
    which the source evaluates them. *)
Definition normalize_reading (raw_data : gmap string pyval)
    (device_id0 : string) (now : Z) : result ReadingData :=
  ro ← safe_float (get raw_data "Ro" (PyFloat zero)) zero;
  rs ← safe_float (get raw_data "Rs" (PyFloat zero)) zero;
  ratio ← safe_float (get raw_data "ratio" PyNone) zero;
  let ratio := choose_ratio ro rs ratio in
  vout ← safe_float (get raw_data "Vout" (PyFloat zero)) zero;
  mret {| rd_device_id := device_id0;
          rd_ro := ro;
          rd_rs := rs;
          rd_ratio := ratio;
          rd_vout := vout;
          rd_status := get raw_data "status" (PyStr "");
          rd_timestamp := now |}.

(** Whether the database driver binds a value that is not a dictionary to
    a parameter of the [String] column [status]. *)
Variable driver_binds : pyval -> bool.

(** Whether [status] can be stored: the normalizer hands it over as the
    payload had it, no driver binds a dictionary, and for every other value
    the driver decides. *)
Definition bindable (status : pyval) : bool :=
  match status with
  | PyDict _ => false
  | _ => driver_binds status
  end.

(** [save_reading(reading_data)] at the instant [now].  When [status]
    cannot be bound, [session.commit()] raises: no row is stored and the
    cache is not written. *)
Definition save_reading (reading_data : ReadingData) (now : Z)
    : Db (result SensorReading) :=
  let is_alert := fle (rd_ratio reading_data) (RATIO_WARNING settings) in
  if bindable (rd_status reading_data) then
    reading ← add_reading
      {| sr_id := 0;
         sr_timestamp := rd_timestamp reading_data;
         sr_device_id := rd_device_id reading_data;
         sr_ro := rd_ro reading_data;
         sr_rs := rd_rs reading_data;
         sr_ratio := rd_ratio reading_data;
         sr_vout := rd_vout reading_data;
         sr_status := rd_status reading_data;
         sr_is_alert := is_alert |};
    let cache_key :=
      ("latest_reading:" ++ rd_device_id reading_data)%string in
    _ ← redis_setex cache_key 300 reading_data now;
    mret (Ok reading)
  else mret (Raise DBAPIError).

(** ** [services/alert_service.py] *)

(** [urllib.parse.quote] and the format [{ratio:.3f}]. *)
Variable quote : string -> string.
Variable format_3f : pyfloat -> string.

(** The constructor [twilio.rest.Client]. *)
Variable Client : string -> string -> TwilioClient.

(** [AlertService.__init__]. *)
Definition AlertService_init : AlertService :=
  {| twilio_client :=
       if truthy (TWILIO_ACCOUNT_SID settings)
          && truthy (TWILIO_AUTH_TOKEN settings)
       then Some (Client (default "" (TWILIO_ACCOUNT_SID settings))
                         (default "" (TWILIO_AUTH_TOKEN settings)))
       else None |}.

(** [timedelta(minutes=1)]. *)
Definition microseconds_per_minute : Z := 60000000.

(** The cooldown of [should_send_alert]. *)
Definition cooldown_minutes (alert_type0 : string) : Z :=
  if String.eqb alert_type0 "spoiled" then 30 else 60.

(** The filter of the query in [should_send_alert]. *)
Definition recent_unresolved (device_id0 alert_type0 : string) (since : Z)
    (a : Alert) : bool :=
  String.eqb (device_id a) device_id0
  && String.eqb (alert_type a) alert_type0
  && (since <=? timestamp a)%Z
  && negb (is_resolved a).

(** [should_send_alert(device_id, alert_type)] at the instant [now]. *)
Definition should_send_alert (device_id0 alert_type0 : string) (now : Z)
    : Db bool := fun w =>
  let since := now - cooldown_minutes alert_type0 * microseconds_per_minute in
  let recent_alert :=
    head (List.filter (recent_unresolved device_id0 alert_type0 since)
                      (alerts w)) in
  (match recent_alert with None => true | Some _ => false end, w).

(** The [webhook_url] of [send_voice_alert]. *)
Definition webhook_url (context : string) : string :=
  let encoded_context := quote context in
  (WEBHOOK_URL settings ++ "?context=" ++ encoded_context)%string.

(** [send_voice_alert(phone_number, context, device_id, ratio)]: the [sid]
    of the call, [None] when Twilio is not configured or the call raises. *)
Definition send_voice_alert (self : AlertService) (phone_number0 context
    device_id0 : string) (ratio : pyfloat) : Db (option string) :=
  _ ← log_event (VoiceAlert phone_number0 context);
  match twilio_client self with
  | None => mret None
  | Some client =>
      let from_ := TWILIO_PHONE_NUMBER settings in
      _ ← log_event (TwilioCall phone_number0 from_ (webhook_url context));
      match client phone_number0 from_ (webhook_url context) with
      | Some sid => mret (Some sid)
      | None => mret None
      end
  end.

(** The [context] of [create_alert]. *)
Definition alert_context (device_id0 : string) (ratio : pyfloat) : string :=
  ("Food spoilage alert for device " ++ device_id0
   ++ ". Current ratio is " ++ format_3f ratio ++ ".")%string.

(** [create_alert(device_id, alert_type, ratio, phone_number=None)]. *)
Definition create_alert (self : AlertService) (device_id0 alert_type0
    : string) (ratio : pyfloat) (phone_number0 : option string) (now : Z)
    : Db Alert :=
  let alert := {| alert_id := 0;
                  timestamp := now;
                  device_id := device_id0;
                  alert_type := alert_type0;
                  ratio_value := ratio;
                  phone_number := phone_number0;
                  call_sid := None;
                  is_resolved := false |} in
  send ← (if truthy phone_number0
          then should_send_alert device_id0 alert_type0 now
          else (mret false : Db bool));
  alert ← (if (send : bool)
           then
             let context := alert_context device_id0 ratio in
             sid ← send_voice_alert self (default "" phone_number0) context
                                    device_id0 ratio;
             (mret (set_call_sid sid alert) : Db Alert)
           else mret alert);
  add_alert alert.

(** The rows that [resolve_alerts] selects. *)
Definition to_resolve (device_id0 : string) (alert_type0 : option string)
    (a : Alert) : bool :=
  String.eqb (device_id a) device_id0
  && negb (is_resolved a)
  && (if truthy alert_type0
      then String.eqb (alert_type a) (default "" alert_type0)
      else true).

(** [resolve_alerts(device_id, alert_type=None)]. *)
Definition resolve_alerts (device_id0 : string)
    (alert_type0 : option string) : Db unit :=
  update_alerts (fun a =>
    if to_resolve device_id0 alert_type0 a
    then set_is_resolved true a else a).

(** ** [tasks.py] *)

(** The block of [collect_device_data] under [# Check for alerts]. *)
Definition check_for_alerts (alert_service : AlertService)
    (device_id0 : string) (ratio : pyfloat) (now : Z) : Db unit :=
  if fle ratio (RATIO_WARNING settings) then
    _ ← create_alert alert_service device_id0 "spoiled" ratio None now;
    mret tt
  else if fle ratio (RATIO_FRESH settings) then
    _ ← create_alert alert_service device_id0 "warning" ratio None now;
    mret tt
  else
    resolve_alerts device_id0 None.

(** [collect_device_data(device_id, device_url)]; [fetched] is what
    [fetch_device_status(device_url)] returns, [None] when it raises.
    Every exception ends in the [error] result. *)
Definition collect_device_data (fetched : option (gmap string pyval))
    (device_id0 : string) (now : Z) : Db task_result :=
  let alert_service := AlertService_init in
  match fetched with
  | None => mret Error
  | Some raw_data =>
      match normalize_reading raw_data device_id0 now with
      | Raise _ => mret Error
      | Ok normalized =>
          saved ← save_reading normalized now;
          match saved with
          | Raise _ => mret Error
          | Ok reading =>
              let ratio := rd_ratio normalized in
              _ ← check_for_alerts alert_service device_id0 ratio now;
              mret (Success ratio)
          end
      end
  end.

(** ** [app.py] *)

(** The block of [process_reading] under [# Check for alerts];
    [alert_phone] is [st.session_state.get("alert_phone")]. *)
Definition check_for_alerts_app (alert_service : AlertService)
    (alert_phone : option string) (device_id0 : string) (ratio : pyfloat)
    (now : Z) : Db unit :=
  if fle ratio (RATIO_WARNING settings) then
    let alert_type0 := "spoiled" in
    let phone := alert_phone in
    send ← (if truthy phone
            then should_send_alert device_id0 alert_type0 now
            else (mret false : Db bool));
    if (send : bool) then
      _ ← create_alert alert_service device_id0 alert_type0 ratio phone now;
      mret tt
    else mret tt
  else if fle ratio (RATIO_FRESH settings) then
    let alert_type0 := "warning" in
    _ ← create_alert alert_service device_id0 alert_type0 ratio None now;
    mret tt
  else
    resolve_alerts device_id0 None.

(** [process_reading(raw_data, device_id)]: an exception is logged and
    raised again. *)
Definition process_reading (alert_phone : option string)
    (raw_data : gmap string pyval) (device_id0 : string) (now : Z)
    : Db (result ReadingData) :=
  let alert_service := AlertService_init in
  match normalize_reading raw_data device_id0 now with
  | Raise e => mret (Raise e)
  | Ok normalized =>
      saved ← save_reading normalized now;
      match saved with
      | Raise e => mret (Raise e)
      | Ok reading =>
          let ratio := rd_ratio normalized in
          _ ← check_for_alerts_app alert_service alert_phone device_id0
                                   ratio now;
          mret (Ok normalized)
      end
  end.

(** The status badge of the dashboard, with the thresholds of the
    sidebar. *)
Definition status_badge (ratio ratio_warning ratio_fresh : pyfloat)
    : badge :=
  if fle ratio ratio_warning then SPOILED
  else if fle ratio ratio_fresh then WARNING
  else FRESH.

(** ** The rest of [services/sensor_service.py] *)

(** [requests.get(url, timeout).json()], [None] when the request, its
    status or the decoding raises. *)
Variable http_get : string -> option (gmap string pyval).

(** [fetch_device_status(device_url)]: every exception is logged and
    raised again, here [None]. *)
Definition fetch_device_status (device_url : string)
    : option (gmap string pyval) :=
  let url := (rstrip_slash device_url ++ "/status")%string in
  http_get url.

(** The rows of a device, newest first. *)
Definition device_rows (device_id0 : string) (w : World)
    : list SensorReading :=
  merge_sort newest_first
    (List.filter (fun r => String.eqb (sr_device_id r) device_id0)
                 (sensor_readings w)).

(** [get_latest_reading(device_id)] at the instant [now]: the cached
    dictionary when the cache has one, else the newest row of the device,
    else [None].  Among rows of one timestamp the database is free to pick;
    the model picks one. *)
Definition get_latest_reading (device_id0 : string) (now : Z)
    : Db (option reading_dict) :=
  let cache_key := ("latest_reading:" ++ device_id0)%string in
  cached ← redis_get cache_key now;
  match cached with
  | Some cached => mret (Some (PlainReading cached))
  | None =>
      fun w =>
      match head (device_rows device_id0 w) with
      | Some reading => (Some (RowReading (row_dict reading)), w)
      | None => (None, w)
      end
  end.

(** [get_readings_history(device_id, hours=24, limit=1000)] at the instant
    [now]. *)
Definition get_readings_history (device_id0 : string) (hours : Z)
    (limit : nat) (now : Z) : Db (list ReadingRow) := fun w =>
  let since := now - hours * microseconds_per_hour in
  let readings :=
    take limit
      (merge_sort newest_first
         (List.filter
            (fun r => String.eqb (sr_device_id r) device_id0
                      && (since <=? sr_timestamp r)%Z)
            (sensor_readings w))) in
  (row_dict <$> readings, w).

(** ** The rest of [tasks.py] *)

(** The two filters of [cleanup_old_data]. *)
Definition old_reading (cutoff_date : Z) (r : SensorReading) : bool :=
  (sr_timestamp r <? cutoff_date)%Z.

Definition old_resolved_alert (cutoff_date : Z) (a : Alert) : bool :=
  (timestamp a <? cutoff_date)%Z && is_resolved a.

(** [cleanup_old_data()] at the instant [now]: the numbers of readings and
    of alerts deleted. *)
Definition cleanup_old_data (now : Z) : Db (nat * nat) := fun w =>
  let cutoff_date := now - 30 * microseconds_per_day in
  let old_readings :=
    length (List.filter (old_reading cutoff_date) (sensor_readings w)) in
  let old_alerts :=
    length (List.filter (old_resolved_alert cutoff_date) (alerts w)) in
  ((old_readings, old_alerts),
   {| sensor_readings :=
        List.filter (fun r => negb (old_reading cutoff_date r))
                    (sensor_readings w);
      reading_seq := reading_seq w;
      alerts :=
        List.filter (fun a => negb (old_resolved_alert cutoff_date a))
                    (alerts w);
      alert_seq := alert_seq w;
      redis := redis w; log := log w |}).

(** The builtins [sum] and [round(x, 3)] on floats, and
    [strftime("%Y-%m-%d")]. *)
Variable py_sum : list pyfloat -> pyfloat.
Variable round_3 : pyfloat -> pyfloat.
Variable strftime_date : Z -> string.

(** [send_daily_report(device_id, email)] at the instant [now]. *)
Definition send_daily_report (device_id0 email : string) (now : Z)
    : Db report_result :=
  history ← get_readings_history device_id0 24 1000%nat now;
  match history with
  | [] => mret NoData
  | _ =>
      let ratios := rr_ratio <$> history in
      let avg_ratio :=
        fdiv (py_sum ratios)
             (default zero (float_of_int (Z.of_nat (length ratios)))) in
      let min_ratio := default zero (py_min ratios) in
      let max_ratio := default zero (py_max ratios) in
      let alert_count := length (List.filter rr_is_alert history) in
      mret (Report device_id0 (strftime_date now) (length history)
                   (round_3 avg_ratio) (round_3 min_ratio)
                   (round_3 max_ratio) alert_count)
  end.

(** ** The rest of [app.py] *)

(** The block under [# Fetch and process data]: whether an error message
    is shown, and the current reading.  [mock] is the reading of
    [get_mock_reading()] when the mock mode is on. *)
Definition fetch_and_process (mock : option (gmap string pyval))
    (alert_phone : option string) (device_url device_id0 : string)
    (now : Z) : Db (bool * option reading_dict) :=
  let fetched :=
    match mock with
    | Some raw_data => Some raw_data
    | None => fetch_device_status device_url
    end in
  match fetched with
  | None =>
      current_reading ← get_latest_reading device_id0 now;
      mret (true, current_reading)
  | Some raw_data =>
      processed ← process_reading alert_phone raw_data device_id0 now;
      match processed with
      | Ok normalized => mret (false, Some (PlainReading normalized))
      | Raise _ =>
          current_reading ← get_latest_reading device_id0 now;
          mret (true, current_reading)
      end
  end.

(** ** Names for the statements

    Nothing below is code of the repository: these definitions name what
    the services above do, so that the theorems read well. *)

(** The instant before which a record no longer counts for the cooldown. *)
Definition window_start (alert_type0 : string) (now : Z) : Z :=
  now - cooldown_minutes alert_type0 * microseconds_per_minute.

(** The row that [create_alert] inserts in the world [w]. *)
Definition new_alert (w : World) (device_id0 alert_type0 : string)
    (ratio : pyfloat) (phone_number0 call_sid0 : option string) (now : Z)
    : Alert :=
  {| alert_id := alert_seq w;
     timestamp := now;
     device_id := device_id0;
     alert_type := alert_type0;
     ratio_value := ratio;
     phone_number := phone_number0;
     call_sid := call_sid0;
     is_resolved := false |}.

(** What the call placed by [send_voice_alert] returns. *)
Definition call_result (self : AlertService) (phone_number0 context : string)
    : option string :=
  match twilio_client self with
  | None => None
  | Some client =>
      client phone_number0 (TWILIO_PHONE_NUMBER settings)
             (webhook_url context)
  end.

(** The events that [send_voice_alert] leaves in the log. *)
Definition call_events (self : AlertService) (phone_number0 context : string)
    : list event :=
  VoiceAlert phone_number0 context ::
  match twilio_client self with
  | None => []
  | Some _ =>
      [TwilioCall phone_number0 (TWILIO_PHONE_NUMBER settings)
                  (webhook_url context)]
  end.

(** The row that [save_reading] inserts in the world [w]. *)
Definition saved_row (w : World) (reading_data : ReadingData)
    : SensorReading :=
  {| sr_id := reading_seq w;
     sr_timestamp := rd_timestamp reading_data;
     sr_device_id := rd_device_id reading_data;
     sr_ro := rd_ro reading_data;
     sr_rs := rd_rs reading_data;
     sr_ratio := rd_ratio reading_data;
     sr_vout := rd_vout reading_data;
     sr_status := rd_status reading_data;
     sr_is_alert := fle (rd_ratio reading_data) (RATIO_WARNING settings) |}.

(** The flag of a row agrees with its ratio. *)
Definition flag_ok (r : SensorReading) : Prop :=
  sr_is_alert r = fle (sr_ratio r) (RATIO_WARNING settings).

(** The key of the cache for a device. *)
Definition cache_key_of (device_id0 : string) : string :=
  ("latest_reading:" ++ device_id0)%string.

(** A field of the payload from which [safe_float] gets no number: the key
    is missing, or its value is null, a list, a dictionary, or a string
    that spells no number. *)
Definition unusable (field : option pyval) : Prop :=
  match field with
  | None | Some PyNone | Some (PyList _) | Some (PyDict _) => True
  | Some (PyStr s) => float_of_str s = None
  | Some (PyBool _) | Some (PyInt _) | Some (PyFloat _) => False
  end.

End Services.

(** What [resolve_alerts(device_id)] does to one row. *)
Definition resolve_row (device_id0 : string) (alert_type0 : option string)
    (a : Alert) : Alert :=
  if to_resolve device_id0 alert_type0 a then set_is_resolved true a else a.



(** ** Stand-ins for the runtime

    They let the model run on concrete payloads: a [float] of strings that
    accepts none (enough for payloads whose fields are JSON numbers), a
    driver that binds everything but lists and dictionaries, a [quote]
    that changes nothing, a fixed rendering of the ratio, and a
    Twilio client that answers every call with the same [sid], or that
    raises on every call. *)

Definition float_of_no_str : string -> option pyfloat := fun _ => None.
Definition binds_scalars : pyval -> bool :=
  fun v => match v with PyList _ | PyDict _ => false | _ => true end.
Definition quote_id : string -> string := fun s => s.
Definition format_const : pyfloat -> string := fun _ => "0.000".
Definition Client_up : string -> string -> TwilioClient :=
  fun _ _ _ _ _ => Some "CA0001".
Definition Client_down : string -> string -> TwilioClient :=
  fun _ _ _ _ _ => None.

(** Settings with the Twilio credentials filled in. *)
Definition twilio_settings : Settings := {|
  RATIO_FRESH := f0_8;
  RATIO_WARNING := f0_5;
  TWILIO_ACCOUNT_SID := Some "AC0001";
  TWILIO_AUTH_TOKEN := Some "token";
  TWILIO_PHONE_NUMBER := Some "+15550100";
  WEBHOOK_URL := "https://twilio-call-jxu9.onrender.com/voice"
|}.

(** A float is a number that is at least zero and not infinite. *)
Definition nonneg_finite (x : pyfloat) : bool := is_finite x && fle zero x.

(** A value that [float] converts without [OverflowError]: everything but
    an integer beyond the range of doubles. *)
Definition fits_double (v : pyval) : bool :=
  match v with
  | PyInt n => bool_decide (is_Some (float_of_int n))
  | _ => true
  end.

(** Floats and payloads used in the examples. *)
Definition f1 : pyfloat := one.
Definition f2 : pyfloat := Eval vm_compute in Prim2SF 2%float.
Definition f0_4 : pyfloat :=
  Eval vm_compute in Prim2SF 0x1.999999999999ap-2%float.
Definition f0_9 : pyfloat :=
  Eval vm_compute in Prim2SF 0x1.ccccccccccccdp-1%float.
Definition minus_one : pyfloat := Eval vm_compute in Prim2SF (-1)%float.
Definition minus_half : pyfloat := Eval vm_compute in Prim2SF (-0.5)%float.

Definition raw_half : gmap string pyval :=
  {[ "Ro" := PyInt 500000; "Rs" := PyInt 250000 ]}.
Definition raw_no_baseline : gmap string pyval :=
  {[ "Ro" := PyInt 0; "Rs" := PyInt 250000 ]}.
Definition raw_explicit_zero : gmap string pyval :=
  {[ "Ro" := PyFloat f2; "Rs" := PyFloat f1; "ratio" := PyFloat zero ]}.
Definition raw_negative_ratio : gmap string pyval :=
  {[ "ratio" := PyFloat minus_one ]}.
Definition raw_negative_rs : gmap string pyval :=
  {[ "Ro" := PyFloat f2; "Rs" := PyFloat minus_one ]}.
Definition raw_nan_ratio : gmap string pyval :=
  {[ "ratio" := PyFloat S754_nan ]}.
Definition f_max : pyfloat :=
  Eval vm_compute in Prim2SF 0x1.fffffffffffffp+1023%float.
Definition f_tiny : pyfloat := Eval vm_compute in Prim2SF 0x1p-1074%float.
Definition raw_infinite_ratio : gmap string pyval :=
  {[ "ratio" := PyFloat (S754_infinity false) ]}.
Definition raw_infinite_rs_ro : gmap string pyval :=
  {[ "Ro" := PyFloat (S754_infinity false);
     "Rs" := PyFloat (S754_infinity false) ]}.
Definition raw_overflow : gmap string pyval :=
  {[ "Ro" := PyFloat f_tiny; "Rs" := PyFloat f_max ]}.
Definition raw_supplied_ratio : gmap string pyval :=
  {[ "Ro" := PyFloat f2; "Rs" := PyFloat minus_one;
     "ratio" := PyFloat f0_9 ]}.

Definition raw_fresh : gmap string pyval :=
  {[ "Ro" := PyInt 10; "Rs" := PyInt 9 ]}.
Definition raw_spoiled : gmap string pyval :=
  {[ "Ro" := PyInt 500000; "Rs" := PyInt 200000 ]}.
Definition raw_huge_int : gmap string pyval :=
  {[ "Ro" := PyInt (10 ^ 400); "Rs" := PyInt 250000 ]}.

(** The world after one spoiled reading of the device, and the instant ten
    minutes later. *)
Definition world_one_spoiled : World :=
  run (collect_device_data default_settings float_of_no_str binds_scalars
         quote_id format_const Client_up (Some raw_spoiled) "esp32_001" 0)
      empty_world.
Definition ten_minutes : Z := 10 * microseconds_per_minute.

(** The world after a spoiled reading and, ten minutes later, a fresh
    one. *)
Definition world_two_readings : World :=
  run (collect_device_data default_settings float_of_no_str binds_scalars
         quote_id format_const Client_up (Some raw_fresh) "esp32_001"
         ten_minutes)
      world_one_spoiled.

(** More stand-ins: a device that answers with a spoiled payload, one
    that does not answer, and builtins for the report. *)
Definition http_spoiled : string -> option (gmap string pyval) :=
  fun _ => Some raw_spoiled.
Definition http_down : string -> option (gmap string pyval) :=
  fun _ => None.
Definition sum_const : list pyfloat -> pyfloat := fun _ => zero.
Definition round_id : pyfloat -> pyfloat := fun x => x.
Definition date_const : Z -> string := fun _ => "1970-01-01".

(** A payload with nothing usable in it. *)
Definition raw_garbage : gmap string pyval :=
  {[ "Ro" := PyStr "n/a"; "Rs" := PyNone ]}.

(** An instant at which the cache entry of a reading stored at instant 0
    is still there, and one at which it is gone. *)
Definition one_minute : Z := microseconds_per_minute.
Definition one_hour : Z := 60 * microseconds_per_minute.

(** A reading as the normalizer hands it over. *)
Definition reading_spoiled : ReadingData :=
  {| rd_device_id := "esp32_001"; rd_ro := one; rd_rs := f0_4;
     rd_ratio := f0_4; rd_vout := zero; rd_status := PyStr "ok";
     rd_timestamp := 0 |}.

(** Payloads whose status no driver binds: a fresh one and a spoiled
    one. *)
Definition raw_fresh_dict_status : gmap string pyval :=
  {[ "Ro" := PyInt 10; "Rs" := PyInt 9;
     "status" := PyDict [("code", PyInt 1)] ]}.
Definition raw_spoiled_dict_status : gmap string pyval :=
  {[ "Ro" := PyInt 500000; "Rs" := PyInt 200000;
     "status" := PyDict [("code", PyInt 1)] ]}.

(** The floats of sign [s] that are numbers. *)
Inductive signed (s : bool) : pyfloat -> Prop :=
| signed_zero : signed s (S754_zero s)
| signed_finite m e : signed s (S754_finite s m e)
| signed_infinity : signed s (S754_infinity s).

(** Membership in a list written out with its first elements. *)
Ltac in_list :=
  repeat first [ assumption
               | apply list_elem_of_here
               | apply list_elem_of_further ].

Ltac unfold_db :=
  unfold run, value, mbind, db_bind, mret, db_ret, add_alert, update_alerts,
    log_event, redis_setex, add_reading in *.

(** * The order of floats *)

Lemma flt_fle_false (x y : pyfloat) : flt x y = true -> fle y x = false.
Proof.
  unfold flt, fle, SFltb, SFleb.
  destruct x as [sx|sx| |sx mx ex], y as [sy|sy| |sy my ey]; simpl;
    try destruct sx; try destruct sy; simpl; try congruence.
  all: destruct (Z.compare_spec ex ey), (Z.compare_spec ey ex); try lia;
    try congruence; subst.
  all: fold (Pos.compare mx my) (Pos.compare my mx).
  all: destruct (Pos.compare_spec mx my), (Pos.compare_spec my mx); simpl;
    try lia; congruence.
Qed.

Lemma fle_flt_trans (x y z : pyfloat) :
  fle x y = true -> flt y z = true -> flt x z = true.
Proof.
  unfold flt, fle, SFltb, SFleb.
  destruct x as [sx|sx| |sx mx ex], y as [sy|sy| |sy my ey],
           z as [sz|sz| |sz mz ez]; simpl;
    try destruct sx; try destruct sy; try destruct sz; simpl;
    try congruence.
  all: destruct (Z.compare_spec ex ey), (Z.compare_spec ey ez),
         (Z.compare_spec ex ez); try lia; try congruence; subst.
  all: fold (Pos.compare mx my) (Pos.compare my mz) (Pos.compare mx mz).
  all: destruct (Pos.compare_spec mx my), (Pos.compare_spec my mz),
         (Pos.compare_spec mx mz); simpl; try lia; try congruence.
Qed.

(** Two numbers are always comparable: only NaN escapes the order. *)
Lemma fle_or_flt (x y : pyfloat) :
  is_nan x = false -> is_nan y = false -> fle x y = true \/ flt y x = true.
Proof.
  unfold flt, fle, SFltb, SFleb.
  destruct x as [sx|sx| |sx mx ex], y as [sy|sy| |sy my ey]; simpl;
    try destruct sx; try destruct sy; simpl; try congruence; auto.
  all: destruct (Z.compare_spec ex ey), (Z.compare_spec ey ex); try lia;
    auto; subst.
  all: fold (Pos.compare mx my) (Pos.compare my mx).
  all: destruct (Pos.compare_spec mx my), (Pos.compare_spec my mx); simpl;
    try lia; auto.
Qed.

Lemma fle_not_nan (x y : pyfloat) :
  fle x y = true -> is_nan x = false /\ is_nan y = false.
Proof. destruct x, y; simpl; auto; discriminate. Qed.

Lemma flt_not_nan (x y : pyfloat) :
  flt x y = true -> is_nan x = false /\ is_nan y = false.
Proof. destruct x, y; simpl; auto; discriminate. Qed.

(** Above the upper threshold is above the lower one. *)
Lemma above_fresh_not_spoiled (w f ratio : pyfloat) :
  fle w f = true -> flt f ratio = true -> fle ratio w = false.
Proof. intros Hwf Hf. apply flt_fle_false. eapply fle_flt_trans; eauto. Qed.

(** * Rounding keeps the sign *)

Section Rounding.

Variables prec0 emax0 : Z.

Lemma shr_1_nonneg mrs : 0 <= shr_m mrs -> 0 <= shr_m (shr_1 mrs).
Proof.
  destruct mrs as [m r s]; simpl.
  destruct m as [|p|p]; simpl; try lia.
  destruct p; simpl; lia.
Qed.

Lemma iter_shr_1_nonneg p : forall mrs,
  0 <= shr_m mrs -> 0 <= shr_m (SpecFloat.iter_pos shr_1 p mrs).
Proof.
  induction p as [p IH|p IH|]; intros mrs H; simpl.
  - apply IH, IH, shr_1_nonneg, H.
  - apply IH, IH, H.
  - apply shr_1_nonneg, H.
Qed.

Lemma shr_fexp_nonneg m e l :
  0 <= m -> 0 <= shr_m (fst (shr_fexp prec0 emax0 m e l)).
Proof.
  intros H. unfold shr_fexp, shr.
  assert (H0 : 0 <= shr_m (shr_record_of_loc m l))
    by (destruct l as [|[]]; exact H).
  destruct (fexp prec0 emax0 (Zdigits2 m + e) - e); simpl; auto.
  apply iter_shr_1_nonneg, H0.
Qed.

Lemma round_nearest_even_nonneg m l : 0 <= m -> 0 <= round_nearest_even m l.
Proof.
  intros H. destruct l as [|[]]; simpl; try lia.
  destruct (Z.even m); lia.
Qed.

Lemma binary_round_aux_signed s m e l :
  0 <= m -> signed s (binary_round_aux prec0 emax0 s m e l).
Proof.
  intros H. unfold binary_round_aux.
  pose proof (shr_fexp_nonneg m e l H) as H1.
  destruct (shr_fexp prec0 emax0 m e l) as [mrs' e']. simpl in H1.
  pose proof (shr_fexp_nonneg _ e' loc_Exact
    (round_nearest_even_nonneg _ (loc_of_shr_record mrs') H1)) as H2.
  destruct (shr_fexp prec0 emax0 (round_nearest_even _ _) e' loc_Exact)
    as [mrs'' e''].
  simpl in H2.
  destruct (shr_m mrs'') as [|p|p]; try lia.
  - constructor.
  - destruct (e'' <=? emax0 - prec0)%Z; constructor.
Qed.

Lemma SFdiv_core_binary_nonneg mx ex my ey :
  0 <= fst (fst (SFdiv_core_binary prec0 emax0 (Zpos mx) ex (Zpos my) ey)).
Proof.
  unfold SFdiv_core_binary.
  set (s := ex - ey - _).
  set (m' := match s with Z0 => _ | Zpos _ => _ | Zneg _ => _ end).
  assert (Hm : 0 <= m').
  { subst m'. destruct s; try lia. apply Z.shiftl_nonneg. lia. }
  pose proof (Z_div_mod m' (Zpos my) eq_refl) as Hd.
  destruct (Z.div_eucl m' (Zpos my)) as [q r]. simpl.
  destruct Hd as [Hd1 Hd2]. nia.
Qed.

End Rounding.

(** A finite number that is at least zero, divided by a positive one, is
    at least zero: never NaN, never negative. *)
Lemma fdiv_nonneg (x y : pyfloat) :
  nonneg_finite x = true -> flt zero y = true -> fle zero (fdiv x y) = true.
Proof.
  unfold nonneg_finite, fdiv, fle, flt, zero.
  destruct x as [sx|[]| |[] mx ex], y as [sy|[]| |[] my ey]; simpl;
    try discriminate; try reflexivity.
  intros _ _.
  pose proof (SFdiv_core_binary_nonneg prec emax mx ex my ey) as H.
  destruct (SFdiv_core_binary prec emax (Z.pos mx) ex (Z.pos my) ey)
    as [[mz ez] lz].
  simpl in H.
  destruct (binary_round_aux_signed prec emax false mz ez lz H); reflexivity.
Qed.

(** * The normalizer *)

Section NormalizerFacts.

Variable float_of_str : string -> option pyfloat.

Lemma safe_float_None default :
  safe_float float_of_str PyNone default = Ok default.
Proof. reflexivity. Qed.

(** A missing key reads as the default of [get]. *)
Lemma get_missing (raw_data : gmap string pyval) key default :
  raw_data !! key = None -> get raw_data key default = default.
Proof. unfold get. intros ->. reflexivity. Qed.

(** Only the overflow of an integer escapes [safe_float]. *)
Lemma safe_float_fits value default :
  fits_double value = true ->
  exists f, safe_float float_of_str value default = Ok f.
Proof.
  destruct value as [|b|n|f|s|l|d]; simpl; intros H; eauto.
  - apply bool_decide_eq_true in H. destruct H as [f Hf].
    rewrite Hf. eauto.
  - destruct (float_of_str s); eauto.
Qed.

Lemma safe_float_unusable value default :
  match value with
  | PyNone | PyList _ | PyDict _ => True
  | PyStr s => float_of_str s = None
  | _ => False
  end ->
  safe_float float_of_str value default = Ok default.
Proof.
  destruct value as [|b|n|f|s|l|d]; simpl; try tauto.
  intros ->. reflexivity.
Qed.

(** Once the four numeric fields are coerced, the reading is built. *)
Lemma normalize_reading_ok raw_data device_id0 now ro rs ratio vout :
  safe_float float_of_str (get raw_data "Ro" (PyFloat zero)) zero = Ok ro ->
  safe_float float_of_str (get raw_data "Rs" (PyFloat zero)) zero = Ok rs ->
  safe_float float_of_str (get raw_data "ratio" PyNone) zero = Ok ratio ->
  safe_float float_of_str (get raw_data "Vout" (PyFloat zero)) zero = Ok vout ->
  normalize_reading float_of_str raw_data device_id0 now =
    Ok {| rd_device_id := device_id0;
          rd_ro := ro;
          rd_rs := rs;
          rd_ratio := choose_ratio ro rs ratio;
          rd_vout := vout;
          rd_status := get raw_data "status" (PyStr "");
          rd_timestamp := now |}.
Proof.
  intros Hro Hrs Hratio Hvout. unfold normalize_reading.
  rewrite Hro. cbn. rewrite Hrs. cbn. rewrite Hratio. cbn.
  rewrite Hvout. reflexivity.
Qed.

(** The normalizer returns a reading for every payload whose integers fit
    in a double. *)
Lemma normalize_reading_total raw_data device_id0 now :
  (forall key v, raw_data !! key = Some v -> fits_double v = true) ->
  exists r, normalize_reading float_of_str raw_data device_id0 now = Ok r.
Proof.
  intros Hfit.
  assert (Hget : forall key d, fits_double d = true ->
                   fits_double (get raw_data key d) = true).
  { intros key d Hd. unfold get.
    destruct (raw_data !! key) eqn:E; eauto. }
  destruct (safe_float_fits (get raw_data "Ro" (PyFloat zero)) zero)
    as [ro Hro]; [auto|].
  destruct (safe_float_fits (get raw_data "Rs" (PyFloat zero)) zero)
    as [rs Hrs]; [auto|].
  destruct (safe_float_fits (get raw_data "ratio" PyNone) zero)
    as [ratio Hratio]; [auto|].
  destruct (safe_float_fits (get raw_data "Vout" (PyFloat zero)) zero)
    as [vout Hvout]; [auto|].
  eexists. apply (normalize_reading_ok _ _ _ _ _ _ _ Hro Hrs Hratio Hvout).
Qed.

(** C5, as the code has it: a ratio field that coerces to a number other
    than zero is used; otherwise (the field is missing, null, unusable or
    zero) the ratio is Rs / Ro when Ro > 0, and stays zero when not. *)
Theorem normalize_reading_ratio_rule raw_data device_id0 now ro rs ratio vout :
  safe_float float_of_str (get raw_data "Ro" (PyFloat zero)) zero = Ok ro ->
  safe_float float_of_str (get raw_data "Rs" (PyFloat zero)) zero = Ok rs ->
  safe_float float_of_str (get raw_data "ratio" PyNone) zero = Ok ratio ->
  safe_float float_of_str (get raw_data "Vout" (PyFloat zero)) zero = Ok vout ->
  exists r,
    normalize_reading float_of_str raw_data device_id0 now = Ok r /\
    (feq ratio zero = false -> rd_ratio r = ratio) /\
    (feq ratio zero = true -> flt zero ro = true ->
       rd_ratio r = fdiv rs ro) /\
    (feq ratio zero = true -> flt zero ro = false ->
       rd_ratio r = ratio /\ feq (rd_ratio r) zero = true) /\
    (raw_data !! "ratio" = None -> ratio = zero).
Proof.
  intros Hro Hrs Hratio Hvout.
  eexists. split.
  { apply (normalize_reading_ok _ _ _ _ _ _ _ Hro Hrs Hratio Hvout). }
  cbn [rd_ratio]. unfold choose_ratio.
  split; [|split; [|split]].
  - intros ->. reflexivity.
  - intros -> ->. reflexivity.
  - intros Ez Ero. rewrite Ez, Ero. cbn. auto.
  - intros Hmiss. rewrite (get_missing _ _ _ Hmiss) in Hratio.
    cbn in Hratio. congruence.
Qed.

(** C6, as the code has it.  The ratio of the reading is the ratio field
    of the payload, or Rs / Ro when that field reads as zero and Ro > 0.
    When the one it comes from (the ratio field, or Rs) coerces to a finite
    number that is at least zero, the ratio of the reading is a number that
    is at least zero, and it is finite unless it was computed as Rs / Ro and
    that quotient overflowed to plus infinity.  Nothing is asked of Ro, nor
    of the field that is not used. *)
Theorem normalize_reading_ratio_nonneg raw_data device_id0 now ro rs ratio
    vout :
  safe_float float_of_str (get raw_data "Ro" (PyFloat zero)) zero = Ok ro ->
  safe_float float_of_str (get raw_data "Rs" (PyFloat zero)) zero = Ok rs ->
  safe_float float_of_str (get raw_data "ratio" PyNone) zero = Ok ratio ->
  safe_float float_of_str (get raw_data "Vout" (PyFloat zero)) zero
  = Ok vout ->
  (feq ratio zero && flt zero ro = true -> nonneg_finite rs = true) ->
  (feq ratio zero && flt zero ro = false -> nonneg_finite ratio = true) ->
  exists r,
    normalize_reading float_of_str raw_data device_id0 now = Ok r /\
    fle zero (rd_ratio r) = true /\
    is_nan (rd_ratio r) = false /\
    (is_finite (rd_ratio r) = true \/
     (rd_ratio r = S754_infinity false /\
      feq ratio zero = true /\ flt zero ro = true /\
      fdiv rs ro = S754_infinity false)).
Proof.
  intros Hro Hrs Hratio Hvout Prs Pratio.
  eexists. split.
  { apply (normalize_reading_ok _ _ _ _ _ _ _ Hro Hrs Hratio Hvout). }
  cbn [rd_ratio]. unfold choose_ratio.
  destruct (feq ratio zero && flt zero ro) eqn:E.
  - specialize (Prs eq_refl). apply andb_true_iff in E as [Ez Ero].
    pose proof (fdiv_nonneg rs ro Prs Ero) as H.
    split; [exact H|].
    destruct (fdiv rs ro) as [s|[]| |[] m e];
      try discriminate; auto 10.
  - specialize (Pratio eq_refl). apply andb_true_iff in Pratio as [Pf Pn].
    split; [exact Pn|]. split; [|left; exact Pf].
    destruct ratio; try discriminate; reflexivity.
Qed.

(** C7, at a payload the code can receive: an integer beyond the range of
    doubles makes [float] raise [OverflowError], which [safe_float] does
    not catch, so the normalizer raises. *)
Theorem normalize_reading_raises_overflow device_id0 now :
  normalize_reading float_of_str raw_huge_int device_id0 now
  = Raise OverflowError.
Proof. vm_compute. reflexivity. Qed.

End NormalizerFacts.

(** * The alert engine *)

Lemma resolve_row_idem device_id0 alert_type0 a :
  resolve_row device_id0 alert_type0 (resolve_row device_id0 alert_type0 a)
  = resolve_row device_id0 alert_type0 a.
Proof.
  unfold resolve_row.
  destruct (to_resolve device_id0 alert_type0 a) eqn:E;
    [|rewrite E; reflexivity].
  unfold to_resolve. cbn.
  rewrite andb_false_r. reflexivity.
Qed.

Lemma resolve_alerts_run device_id0 alert_type0 w :
  resolve_alerts device_id0 alert_type0 w =
  (tt, {| sensor_readings := sensor_readings w;
          reading_seq := reading_seq w;
          alerts := resolve_row device_id0 alert_type0 <$> alerts w;
          alert_seq := alert_seq w;
          redis := redis w; log := log w |}).
Proof. reflexivity. Qed.

(** C9: resolving twice is resolving once. *)
Theorem resolve_alerts_idempotent device_id0 alert_type0 w :
  run (resolve_alerts device_id0 alert_type0)
      (run (resolve_alerts device_id0 alert_type0) w)
  = run (resolve_alerts device_id0 alert_type0) w.
Proof.
  unfold run. rewrite !resolve_alerts_run. cbn.
  f_equal. rewrite <- list_fmap_compose.
  apply list_fmap_ext. intros i a _. apply resolve_row_idem.
Qed.

Section AlertFacts.

Variable settings : Settings.
Variable float_of_str : string -> option pyfloat.
Variable driver_binds : pyval -> bool.
Variable quote : string -> string.
Variable format_3f : pyfloat -> string.
Variable Client : string -> string -> TwilioClient.

Lemma should_send_alert_run device_id0 alert_type0 now w :
  run (should_send_alert device_id0 alert_type0 now) w = w.
Proof. reflexivity. Qed.

(** A record in the window closes the gate. *)
Lemma should_send_alert_false device_id0 alert_type0 now w a :
  a ∈ alerts w ->
  recent_unresolved device_id0 alert_type0
    (window_start alert_type0 now) a = true ->
  should_send_alert device_id0 alert_type0 now w = (false, w).
Proof.
  intros Hin Hrec. unfold should_send_alert.
  fold (window_start alert_type0 now).
  destruct (head _) eqn:E; [reflexivity|].
  apply head_None in E.
  assert (Hf : a ∈ List.filter
            (recent_unresolved device_id0 alert_type0
               (window_start alert_type0 now)) (alerts w)).
  { apply list_elem_of_In, filter_In. split; [|exact Hrec].
    apply list_elem_of_In, Hin. }
  rewrite E in Hf. inversion Hf.
Qed.

Lemma send_voice_alert_run self phone_number0 context device_id0 ratio w :
  send_voice_alert settings quote self phone_number0 context device_id0
    ratio w
  = (call_result settings quote self phone_number0 context,
     {| sensor_readings := sensor_readings w;
        reading_seq := reading_seq w;
        alerts := alerts w; alert_seq := alert_seq w;
        redis := redis w;
        log := log w
               ++ call_events settings quote self phone_number0 context |}).
Proof.
  unfold send_voice_alert, call_result, call_events. unfold_db.
  destruct (twilio_client self) as [client|]; cbn.
  - rewrite <- app_assoc. cbn.
    destruct (client _ _ _); reflexivity.
  - reflexivity.
Qed.

(** [create_alert] when no call is attempted. *)
Lemma create_alert_silent self device_id0 alert_type0 ratio phone_number0
    now w :
  (if truthy phone_number0
   then fst (should_send_alert device_id0 alert_type0 now w) else false)
  = false ->
  create_alert settings quote format_3f self device_id0 alert_type0 ratio
    phone_number0 now w
  = (new_alert w device_id0 alert_type0 ratio phone_number0 None now,
     {| sensor_readings := sensor_readings w;
        reading_seq := reading_seq w;
        alerts := alerts w ++
          [new_alert w device_id0 alert_type0 ratio phone_number0 None now];
        alert_seq := alert_seq w + 1;
        redis := redis w; log := log w |}).
Proof.
  intros H. unfold create_alert. unfold_db.
  destruct (truthy phone_number0).
  - unfold should_send_alert in *. cbn in H. rewrite H. reflexivity.
  - reflexivity.
Qed.

(** [create_alert] when the call is attempted. *)
Lemma create_alert_calling self device_id0 alert_type0 ratio phone now w :
  truthy (Some phone) = true ->
  fst (should_send_alert device_id0 alert_type0 now w) = true ->
  let context := alert_context format_3f device_id0 ratio in
  let sid := call_result settings quote self phone context in
  create_alert settings quote format_3f self device_id0 alert_type0 ratio
    (Some phone) now w
  = (new_alert w device_id0 alert_type0 ratio (Some phone) sid now,
     {| sensor_readings := sensor_readings w;
        reading_seq := reading_seq w;
        alerts := alerts w ++
          [new_alert w device_id0 alert_type0 ratio (Some phone) sid now];
        alert_seq := alert_seq w + 1;
        redis := redis w;
        log := log w ++ call_events settings quote self phone context |}).
Proof.
  intros Hp Hs. cbn zeta. unfold create_alert.
  unfold mbind at 1, db_bind at 1. rewrite Hp.
  unfold should_send_alert in *. cbn in Hs. rewrite Hs.
  unfold mbind at 1, db_bind at 1.
  unfold mbind at 1, db_bind at 1.
  rewrite send_voice_alert_run. reflexivity.
Qed.

(** Whatever the notifier does, [create_alert] appends one unresolved row
    that differs from case to case in its [call_sid] only, and touches
    nothing else but the log. *)
Lemma create_alert_shape self device_id0 alert_type0 ratio phone_number0
    now w :
  exists sid,
    let a := new_alert w device_id0 alert_type0 ratio phone_number0 sid now in
    let w' := run (create_alert settings quote format_3f self device_id0
                     alert_type0 ratio phone_number0 now) w in
    value (create_alert settings quote format_3f self device_id0
             alert_type0 ratio phone_number0 now) w = a /\
    alerts w' = alerts w ++ [a] /\
    alert_seq w' = alert_seq w + 1 /\
    sensor_readings w' = sensor_readings w /\
    redis w' = redis w.
Proof.
  destruct (if truthy phone_number0
            then fst (should_send_alert device_id0 alert_type0 now w)
            else false) eqn:E.
  - destruct phone_number0 as [phone|]; [|discriminate].
    destruct (truthy (Some phone)) eqn:Hp; [|discriminate].
    eexists. unfold run, value.
    rewrite (create_alert_calling self _ _ _ _ _ _ Hp E). cbn.
    repeat split; reflexivity.
  - exists None. unfold run, value.
    rewrite (create_alert_silent self _ _ _ _ _ _ E). cbn.
    repeat split; reflexivity.
Qed.

(** C3: when the notifier fails, because Twilio is not configured or
    because the call raises, [create_alert] still returns and persists the
    record, with the device, the kind and the ratio it was given; its
    [call_sid] is unset, and that is the only difference from the record of
    a call that succeeds. *)
Theorem create_alert_survives_notifier_failure self device_id0 alert_type0
    ratio phone_number0 now w :
  call_result settings quote self (default "" phone_number0)
    (alert_context format_3f device_id0 ratio) = None ->
  let a := value (create_alert settings quote format_3f self device_id0
                    alert_type0 ratio phone_number0 now) w in
  let w' := run (create_alert settings quote format_3f self device_id0
                   alert_type0 ratio phone_number0 now) w in
  a = new_alert w device_id0 alert_type0 ratio phone_number0 None now /\
  alerts w' = alerts w ++ [a] /\
  device_id a = device_id0 /\ alert_type a = alert_type0 /\
  ratio_value a = ratio /\ call_sid a = None /\
  forall self',
    set_call_sid None
      (value (create_alert settings quote format_3f self' device_id0
                alert_type0 ratio phone_number0 now) w) = a /\
    length (alerts (run (create_alert settings quote format_3f self'
                           device_id0 alert_type0 ratio phone_number0 now) w))
    = length (alerts w').
Proof.
  intros Hfail. cbn zeta.
  assert (Ha : create_alert settings quote format_3f self device_id0
                 alert_type0 ratio phone_number0 now w
               = (new_alert w device_id0 alert_type0 ratio phone_number0
                    None now,
                  snd (create_alert settings quote format_3f self device_id0
                         alert_type0 ratio phone_number0 now w)) /\
               alerts (snd (create_alert settings quote format_3f self
                              device_id0 alert_type0 ratio phone_number0
                              now w))
               = alerts w ++ [new_alert w device_id0 alert_type0 ratio
                                phone_number0 None now]).
  { destruct (if truthy phone_number0
              then fst (should_send_alert device_id0 alert_type0 now w)
              else false) eqn:E.
    - destruct phone_number0 as [phone|]; [|discriminate].
      destruct (truthy (Some phone)) eqn:Hp; [|discriminate].
      rewrite (create_alert_calling self _ _ _ _ _ _ Hp E).
      cbn in Hfail. rewrite Hfail. cbn. split; reflexivity.
    - rewrite (create_alert_silent self _ _ _ _ _ _ E). cbn.
      split; reflexivity. }
  destruct Ha as [Ha Hw]. unfold value, run. rewrite Ha. cbn [fst snd].
  rewrite Hw.
  repeat split; try reflexivity.
  - destruct (create_alert_shape self' device_id0 alert_type0 ratio
                phone_number0 now w) as (sid & Hv & _).
    unfold value in Hv. rewrite Hv. reflexivity.
  - destruct (create_alert_shape self' device_id0 alert_type0 ratio
                phone_number0 now w) as (sid & _ & Hal & _).
    unfold run in Hal. rewrite Hal. rewrite !length_app. reflexivity.
Qed.

(** C8, for [create_alert]: without a recipient the log of the notifier
    does not grow. *)
Lemma create_alert_no_recipient self device_id0 alert_type0 ratio
    phone_number0 now w :
  truthy phone_number0 = false ->
  log (run (create_alert settings quote format_3f self device_id0
              alert_type0 ratio phone_number0 now) w) = log w.
Proof.
  intros Hp. unfold run. rewrite create_alert_silent.
  - reflexivity.
  - rewrite Hp. reflexivity.
Qed.

Lemma resolve_alerts_log device_id0 alert_type0 w :
  log (run (resolve_alerts device_id0 alert_type0) w) = log w.
Proof. reflexivity. Qed.

Lemma save_reading_log rd now w :
  log (run (save_reading settings driver_binds rd now) w) = log w.
Proof.
  unfold run, save_reading. destruct (bindable driver_binds _); reflexivity.
Qed.

Lemma save_reading_alerts rd now w :
  alerts (run (save_reading settings driver_binds rd now) w) = alerts w /\
  alert_seq (run (save_reading settings driver_binds rd now) w)
  = alert_seq w.
Proof.
  unfold run, save_reading.
  destruct (bindable driver_binds _); split; reflexivity.
Qed.

(** The two ends of [save_reading]. *)
Lemma save_reading_raises rd now w :
  bindable driver_binds (rd_status rd) = false ->
  save_reading settings driver_binds rd now w = (Raise DBAPIError, w).
Proof. intros H. unfold save_reading. rewrite H. reflexivity. Qed.

Lemma save_reading_stores rd now w :
  bindable driver_binds (rd_status rd) = true ->
  save_reading settings driver_binds rd now w
  = (Ok (saved_row settings w rd),
     {| sensor_readings := sensor_readings w ++ [saved_row settings w rd];
        reading_seq := reading_seq w + 1;
        alerts := alerts w; alert_seq := alert_seq w;
        redis := <[cache_key_of (rd_device_id rd) :=
                     {| ce_value := rd;
                        ce_expires := now + 300 * microseconds_per_second |}]>
                   (redis w);
        log := log w |}).
Proof. intros H. unfold save_reading. rewrite H. reflexivity. Qed.

(** The two pipelines once the payload is normalized: the alert step runs
    on what [save_reading] has left, or not at all. *)
Lemma collect_device_data_run raw_data device_id0 now rd w :
  normalize_reading float_of_str raw_data device_id0 now = Ok rd ->
  collect_device_data settings float_of_str driver_binds quote format_3f
    Client (Some raw_data) device_id0 now w
  = if bindable driver_binds (rd_status rd)
    then (Success (rd_ratio rd),
          snd (check_for_alerts settings quote format_3f
                 (AlertService_init settings Client) device_id0
                 (rd_ratio rd) now
                 (snd (save_reading settings driver_binds rd now w))))
    else (Error, w).
Proof.
  intros H. unfold collect_device_data. rewrite H.
  unfold mbind at 1, db_bind at 1.
  destruct (bindable driver_binds (rd_status rd)) eqn:B.
  - rewrite (save_reading_stores _ _ _ B). cbn [snd].
    unfold mbind, db_bind.
    destruct (check_for_alerts _ _ _ _ _ _ _ _) as [u w2]. reflexivity.
  - rewrite (save_reading_raises _ _ _ B). reflexivity.
Qed.

Lemma process_reading_run alert_phone raw_data device_id0 now rd w :
  normalize_reading float_of_str raw_data device_id0 now = Ok rd ->
  process_reading settings float_of_str driver_binds quote format_3f Client
    alert_phone raw_data device_id0 now w
  = if bindable driver_binds (rd_status rd)
    then (Ok rd,
          snd (check_for_alerts_app settings quote format_3f
                 (AlertService_init settings Client) alert_phone device_id0
                 (rd_ratio rd) now
                 (snd (save_reading settings driver_binds rd now w))))
    else (Raise DBAPIError, w).
Proof.
  intros H. unfold process_reading. rewrite H.
  unfold mbind at 1, db_bind at 1.
  destruct (bindable driver_binds (rd_status rd)) eqn:B.
  - rewrite (save_reading_stores _ _ _ B). cbn [snd].
    unfold mbind, db_bind.
    destruct (check_for_alerts_app _ _ _ _ _ _ _ _ _) as [u w2].
    reflexivity.
  - rewrite (save_reading_raises _ _ _ B). reflexivity.
Qed.

Lemma check_for_alerts_log self device_id0 ratio now w :
  log (run (check_for_alerts settings quote format_3f self device_id0 ratio
              now) w) = log w.
Proof.
  unfold check_for_alerts.
  destruct (fle ratio (RATIO_WARNING settings));
    [|destruct (fle ratio (RATIO_FRESH settings))].
  3: apply resolve_alerts_log.
  all: unfold run, mbind, db_bind; rewrite create_alert_silent;
    reflexivity.
Qed.

Lemma check_for_alerts_app_log self alert_phone device_id0 ratio now w :
  truthy alert_phone = false ->
  log (run (check_for_alerts_app settings quote format_3f self alert_phone
              device_id0 ratio now) w) = log w.
Proof.
  intros Hp. unfold check_for_alerts_app.
  destruct (fle ratio (RATIO_WARNING settings));
    [|destruct (fle ratio (RATIO_FRESH settings))].
  - rewrite Hp. reflexivity.
  - unfold run, mbind, db_bind; rewrite create_alert_silent; reflexivity.
  - apply resolve_alerts_log.
Qed.

(** C8: for a device without a recipient (no phone number, or an empty
    one), nothing that evaluates a reading uses the notifier, whatever the
    ratio: neither [create_alert], nor the dashboard's [process_reading],
    nor the task [collect_device_data], which never passes a recipient. *)
Theorem no_recipient_no_notifier self alert_phone fetched raw_data
    device_id0 alert_type0 ratio now w :
  truthy alert_phone = false ->
  log (run (create_alert settings quote format_3f self device_id0
              alert_type0 ratio alert_phone now) w) = log w /\
  log (run (process_reading settings float_of_str driver_binds quote
              format_3f Client alert_phone raw_data device_id0 now) w)
  = log w /\
  log (run (collect_device_data settings float_of_str driver_binds quote
              format_3f Client fetched device_id0 now) w) = log w.
Proof.
  intros Hp. split; [|split].
  - apply create_alert_no_recipient, Hp.
  - destruct (normalize_reading float_of_str raw_data device_id0 now)
      as [rd|e] eqn:E.
    2: { unfold process_reading. rewrite E. reflexivity. }
    unfold run. rewrite (process_reading_run _ _ _ _ _ _ E).
    destruct (bindable driver_binds (rd_status rd)); [|reflexivity].
    cbn [snd].
    pose proof (check_for_alerts_app_log (AlertService_init settings Client)
                  alert_phone device_id0 (rd_ratio rd) now
                  (snd (save_reading settings driver_binds rd now w)) Hp)
      as L2.
    pose proof (save_reading_log rd now w) as L1.
    unfold run in L1, L2. congruence.
  - destruct fetched as [raw|]; [|reflexivity].
    destruct (normalize_reading float_of_str raw device_id0 now)
      as [rd|e] eqn:E.
    2: { unfold collect_device_data. rewrite E. reflexivity. }
    unfold run. rewrite (collect_device_data_run _ _ _ _ _ E).
    destruct (bindable driver_binds (rd_status rd)); [|reflexivity].
    cbn [snd].
    pose proof (check_for_alerts_log (AlertService_init settings Client)
                  device_id0 (rd_ratio rd) now
                  (snd (save_reading settings driver_binds rd now w)))
      as L2.
    pose proof (save_reading_log rd now w) as L1.
    unfold run in L1, L2. congruence.
Qed.

(** ** Which branch a ratio takes *)

Lemma check_for_alerts_spoiled self device_id0 ratio now :
  fle ratio (RATIO_WARNING settings) = true ->
  check_for_alerts settings quote format_3f self device_id0 ratio now
  = (_ ← create_alert settings quote format_3f self device_id0 "spoiled"
           ratio None now; mret tt).
Proof. intros H. unfold check_for_alerts. rewrite H. reflexivity. Qed.

Lemma check_for_alerts_warning self device_id0 ratio now :
  fle ratio (RATIO_WARNING settings) = false ->
  fle ratio (RATIO_FRESH settings) = true ->
  check_for_alerts settings quote format_3f self device_id0 ratio now
  = (_ ← create_alert settings quote format_3f self device_id0 "warning"
           ratio None now; mret tt).
Proof. intros H1 H2. unfold check_for_alerts. rewrite H1, H2. reflexivity. Qed.

Lemma check_for_alerts_fresh self device_id0 ratio now :
  fle ratio (RATIO_WARNING settings) = false ->
  fle ratio (RATIO_FRESH settings) = false ->
  check_for_alerts settings quote format_3f self device_id0 ratio now
  = resolve_alerts device_id0 None.
Proof. intros H1 H2. unfold check_for_alerts. rewrite H1, H2. reflexivity. Qed.

Lemma check_for_alerts_app_fresh self alert_phone device_id0 ratio now :
  fle ratio (RATIO_WARNING settings) = false ->
  fle ratio (RATIO_FRESH settings) = false ->
  check_for_alerts_app settings quote format_3f self alert_phone device_id0
    ratio now
  = resolve_alerts device_id0 None.
Proof.
  intros H1 H2. unfold check_for_alerts_app. rewrite H1, H2. reflexivity.
Qed.

(** After [resolve_alerts(device_id)] no row of the device is open, and
    the rows of the other devices are as they were. *)
Lemma resolve_row_spec device_id0 a :
  resolve_row device_id0 None a
  = if String.eqb (device_id a) device_id0 then set_is_resolved true a else a.
Proof.
  unfold resolve_row, to_resolve. cbn.
  destruct (String.eqb (device_id a) device_id0); cbn; [|reflexivity].
  rewrite andb_true_r.
  destruct a as [i t d k r p c []]; reflexivity.
Qed.

Lemma resolve_row_resolved device_id0 a :
  device_id (resolve_row device_id0 None a) = device_id0 ->
  is_resolved (resolve_row device_id0 None a) = true.
Proof.
  rewrite resolve_row_spec.
  destruct (String.eqb (device_id a) device_id0) eqn:E; cbn; [reflexivity|].
  intros H. apply String.eqb_neq in E. contradiction.
Qed.

(** C2: for a ratio above the fresh threshold the alert step, in the task
    and in the dashboard, marks every open record of the device, of both
    kinds, as resolved and creates no record; and so do
    [collect_device_data] and [process_reading] for every reading of that
    ratio that [save_reading] has stored.  The thresholds are ordered as
    the configuration requires, warning <= fresh. *)
Theorem fresh_reading_resolves self alert_phone device_id0 ratio now w :
  fle (RATIO_WARNING settings) (RATIO_FRESH settings) = true ->
  flt (RATIO_FRESH settings) ratio = true ->
  let resolved := resolve_row device_id0 None <$> alerts w in
  let w1 := run (check_for_alerts settings quote format_3f self device_id0
                   ratio now) w in
  let w2 := run (check_for_alerts_app settings quote format_3f self
                   alert_phone device_id0 ratio now) w in
  alerts w1 = resolved /\ alerts w2 = resolved /\
  (forall a, a ∈ resolved -> device_id a = device_id0 ->
             is_resolved a = true) /\
  length resolved = length (alerts w) /\
  alert_seq w1 = alert_seq w /\ alert_seq w2 = alert_seq w /\
  forall raw_data rd,
    normalize_reading float_of_str raw_data device_id0 now = Ok rd ->
    rd_ratio rd = ratio ->
    bindable driver_binds (rd_status rd) = true ->
    alerts (run (collect_device_data settings float_of_str driver_binds
                   quote format_3f Client (Some raw_data) device_id0 now) w)
    = resolved /\
    alerts (run (process_reading settings float_of_str driver_binds quote
                   format_3f Client alert_phone raw_data device_id0 now) w)
    = resolved.
Proof.
  intros Hwf Hfresh. cbn zeta.
  pose proof (flt_fle_false _ _ Hfresh) as Hf.
  pose proof (above_fresh_not_spoiled _ _ _ Hwf Hfresh) as Hw.
  rewrite (check_for_alerts_fresh self _ _ _ Hw Hf).
  rewrite (check_for_alerts_app_fresh self alert_phone _ _ _ Hw Hf).
  split; [reflexivity|]. split; [reflexivity|].
  split.
  { intros a Hin Hd. apply list_elem_of_fmap in Hin as (b & -> & _).
    apply resolve_row_resolved, Hd. }
  split; [apply length_fmap|].
  split; [reflexivity|]. split; [reflexivity|].
  intros raw_data rd Hnorm Hr Hb. subst ratio. unfold run. split.
  - rewrite (collect_device_data_run _ _ _ _ _ Hnorm), Hb. cbn [snd].
    rewrite (check_for_alerts_fresh _ _ _ _ Hw Hf).
    rewrite (save_reading_stores _ _ _ Hb). reflexivity.
  - rewrite (process_reading_run _ _ _ _ _ _ Hnorm), Hb. cbn [snd].
    rewrite (check_for_alerts_app_fresh _ _ _ _ _ Hw Hf).
    rewrite (save_reading_stores _ _ _ Hb). reflexivity.
Qed.

(** C10: the row that [save_reading] persists has [is_alert] set exactly
    when the ratio is at most the warning threshold; a ratio of the
    warning band, above that threshold, leaves the flag unset.  A reading
    whose status cannot be bound is not persisted at all. *)
Theorem save_reading_is_alert rd now w :
  if bindable driver_binds (rd_status rd) then
    exists r w',
      save_reading settings driver_binds rd now w = (Ok r, w') /\
      sensor_readings w' = sensor_readings w ++ [r] /\
      sr_ratio r = rd_ratio rd /\
      sr_is_alert r = fle (sr_ratio r) (RATIO_WARNING settings) /\
      (sr_is_alert r = true <->
       fle (sr_ratio r) (RATIO_WARNING settings) = true) /\
      (flt (RATIO_WARNING settings) (sr_ratio r) = true ->
       sr_is_alert r = false)
  else
    save_reading settings driver_binds rd now w = (Raise DBAPIError, w).
Proof.
  destruct (bindable driver_binds (rd_status rd)) eqn:B.
  - do 2 eexists. split; [apply (save_reading_stores _ _ _ B)|].
    cbn. split; [reflexivity|]. split; [reflexivity|].
    split; [reflexivity|]. split; [reflexivity|]. apply flt_fle_false.
  - apply (save_reading_raises _ _ _ B).
Qed.

(** C4, as the code has it: with thresholds ordered warning <= fresh and a
    ratio that is a number, a ratio at most the warning threshold takes the
    spoiled branch, one above it and at most the fresh threshold takes the
    warning branch, one above the fresh threshold takes the resolving
    branch, in the task, in the dashboard and on the badge; exactly one of
    the three cases holds. *)
Theorem severity_bands self alert_phone device_id0 ratio now :
  fle (RATIO_WARNING settings) (RATIO_FRESH settings) = true ->
  is_nan ratio = false ->
  let W := RATIO_WARNING settings in
  let F := RATIO_FRESH settings in
  (fle ratio W = true ->
     status_badge ratio W F = SPOILED /\
     check_for_alerts settings quote format_3f self device_id0 ratio now
     = (_ ← create_alert settings quote format_3f self device_id0 "spoiled"
              ratio None now; mret tt) /\
     check_for_alerts_app settings quote format_3f self alert_phone
       device_id0 ratio now
     = (send ← (if truthy alert_phone
                then should_send_alert device_id0 "spoiled" now
                else (mret false : Db bool));
        if (send : bool)
        then _ ← create_alert settings quote format_3f self device_id0
                   "spoiled" ratio alert_phone now; mret tt
        else mret tt)) /\
  (flt W ratio = true -> fle ratio F = true ->
     status_badge ratio W F = WARNING /\
     check_for_alerts settings quote format_3f self device_id0 ratio now
     = (_ ← create_alert settings quote format_3f self device_id0 "warning"
              ratio None now; mret tt) /\
     check_for_alerts_app settings quote format_3f self alert_phone
       device_id0 ratio now
     = (_ ← create_alert settings quote format_3f self device_id0 "warning"
              ratio None now; mret tt)) /\
  (flt F ratio = true ->
     status_badge ratio W F = FRESH /\
     check_for_alerts settings quote format_3f self device_id0 ratio now
     = resolve_alerts device_id0 None /\
     check_for_alerts_app settings quote format_3f self alert_phone
       device_id0 ratio now
     = resolve_alerts device_id0 None) /\
  ((fle ratio W = true /\ flt W ratio && fle ratio F = false
      /\ flt F ratio = false) \/
   (fle ratio W = false /\ flt W ratio && fle ratio F = true
      /\ flt F ratio = false) \/
   (fle ratio W = false /\ flt W ratio && fle ratio F = false
      /\ flt F ratio = true)).
Proof.
  intros Hwf Hnum W F. subst W F.
  destruct (fle_not_nan _ _ Hwf) as [HW HF].
  split; [|split; [|split]].
  - intros H. unfold status_badge, check_for_alerts, check_for_alerts_app.
    rewrite H. auto.
  - intros H1 H2. apply flt_fle_false in H1.
    unfold status_badge, check_for_alerts, check_for_alerts_app.
    rewrite H1, H2. auto.
  - intros H.
    pose proof (above_fresh_not_spoiled _ _ _ Hwf H) as H1.
    pose proof (flt_fle_false _ _ H) as H2.
    unfold status_badge, check_for_alerts, check_for_alerts_app.
    rewrite H1, H2. auto.
  - destruct (fle_or_flt ratio _ Hnum HW) as [H|H].
    + left. split; [exact H|].
      destruct (flt (RATIO_WARNING settings) ratio) eqn:E1.
      { apply flt_fle_false in E1. congruence. }
      destruct (flt (RATIO_FRESH settings) ratio) eqn:E2; [|auto].
      pose proof (above_fresh_not_spoiled _ _ _ Hwf E2). congruence.
    + right. rewrite H, (flt_fle_false _ _ H). cbn.
      destruct (fle_or_flt ratio _ Hnum HF) as [H'|H'].
      * left. rewrite H'. split; [reflexivity|]. split; [reflexivity|].
        destruct (flt (RATIO_FRESH settings) ratio) eqn:E; [|reflexivity].
        apply flt_fle_false in E. congruence.
      * right. rewrite H', (flt_fle_false _ _ H'). auto.
Qed.

(** ** The cooldown *)

(** C1, as the code has it: while an open record of the kind for the device
    lies in the cooldown window, the gate [should_send_alert] is closed, so
    [create_alert] places no call and leaves [call_sid] unset, yet it still
    inserts a new open record, and so does the task for a spoiled reading;
    the spoiled branch of the dashboard is the one place where the reading
    creates no record. *)
Theorem cooldown_gates_the_call self alert_phone device_id0 alert_type0
    ratio phone_number0 now w a :
  a ∈ alerts w ->
  recent_unresolved device_id0 alert_type0
    (window_start alert_type0 now) a = true ->
  let created := new_alert w device_id0 alert_type0 ratio phone_number0 None
                   now in
  let w' := run (create_alert settings quote format_3f self device_id0
                   alert_type0 ratio phone_number0 now) w in
  value (should_send_alert device_id0 alert_type0 now) w = false /\
  value (create_alert settings quote format_3f self device_id0 alert_type0
           ratio phone_number0 now) w = created /\
  alerts w' = alerts w ++ [created] /\
  log w' = log w /\
  (alert_type0 = "spoiled" -> fle ratio (RATIO_WARNING settings) = true ->
     alerts (run (check_for_alerts settings quote format_3f self device_id0
                    ratio now) w)
     = alerts w ++ [new_alert w device_id0 "spoiled" ratio None None now]
     /\
     run (check_for_alerts_app settings quote format_3f self alert_phone
            device_id0 ratio now) w = w).
Proof.
  intros Hin Hrec. cbn zeta.
  pose proof (should_send_alert_false _ _ _ _ _ Hin Hrec) as Hgate.
  assert (Hsilent : (if truthy phone_number0
                     then fst (should_send_alert device_id0 alert_type0
                                 now w)
                     else false) = false).
  { rewrite Hgate. destruct (truthy phone_number0); reflexivity. }
  unfold value, run.
  rewrite (create_alert_silent self _ _ _ _ _ _ Hsilent). cbn [fst snd].
  rewrite Hgate. cbn [fst snd alerts log].
  repeat (split; [reflexivity|]).
  intros -> Hsp. split.
  - rewrite (check_for_alerts_spoiled _ _ _ _ Hsp).
    unfold mbind, db_bind. rewrite create_alert_silent by reflexivity.
    reflexivity.
  - unfold check_for_alerts_app. rewrite Hsp.
    unfold mbind, db_bind.
    destruct (truthy alert_phone); [rewrite Hgate|]; reflexivity.
Qed.

End AlertFacts.

(** * The theorems at concrete inputs *)

(** The first example of the specification: Ro = 500000 and Rs = 250000
    give the ratio 0.5 exactly. *)
Lemma normalize_reading_ratio_rule_witness :
  exists r,
    normalize_reading float_of_no_str raw_half "esp32_001" 0 = Ok r /\
    rd_ratio r = f0_5.
Proof.
  edestruct (normalize_reading_ratio_rule float_of_no_str raw_half
               "esp32_001" 0) as (r & Hr & _ & Hdiv & _).
  1-4: vm_compute; reflexivity.
  exists r. split; [exact Hr|].
  rewrite Hdiv; vm_compute; reflexivity.
Defined.

(** The second example: with Ro = 0 nothing is divided and the ratio is
    0.0. *)
Example normalize_reading_no_baseline :
  exists r,
    normalize_reading float_of_no_str raw_no_baseline "esp32_001" 0 = Ok r /\
    rd_ratio r = zero.
Proof. eexists. split; vm_compute; reflexivity. Qed.

(** C5 as stated fails: a payload that supplies the ratio 0.0 together
    with Ro = 2 and Rs = 1 gets the ratio 0.5, not the 0.0 it supplied. *)
Lemma explicit_zero_ratio_is_recomputed :
  raw_explicit_zero !! "ratio" = Some (PyFloat zero) /\
  exists r,
    normalize_reading float_of_no_str raw_explicit_zero "esp32_001" 0 = Ok r
    /\ rd_ratio r = f0_5 /\ rd_ratio r <> zero.
Proof.
  split; [vm_compute; reflexivity|].
  eexists. split; [vm_compute; reflexivity|].
  split; [reflexivity|discriminate].
Qed.

Lemma normalize_reading_ratio_nonneg_witness :
  (exists r,
     normalize_reading float_of_no_str raw_half "esp32_001" 0 = Ok r /\
     fle zero (rd_ratio r) = true /\ is_finite (rd_ratio r) = true) /\
  (exists r,
     normalize_reading float_of_no_str raw_supplied_ratio "esp32_001" 0
     = Ok r /\
     fle zero (rd_ratio r) = true /\ is_finite (rd_ratio r) = true).
Proof.
  split.
  - edestruct (normalize_reading_ratio_nonneg float_of_no_str raw_half
                 "esp32_001" 0) as (r & Hr & Hle & _ & Hfin).
    1-4: vm_compute; reflexivity.
    1-2: vm_compute; intros; (reflexivity || discriminate).
    exists r. split; [exact Hr|]. split; [exact Hle|].
    destruct Hfin as [Hfin|(_ & _ & _ & Hinf)]; [exact Hfin|].
    vm_compute in Hinf. discriminate.
  - edestruct (normalize_reading_ratio_nonneg float_of_no_str
                 raw_supplied_ratio "esp32_001" 0)
      as (r & Hr & Hle & _ & Hfin).
    1-4: vm_compute; reflexivity.
    1-2: vm_compute; intros; (reflexivity || discriminate).
    exists r. split; [exact Hr|]. split; [exact Hle|].
    destruct Hfin as [Hfin|(_ & Hz & _)]; [exact Hfin|].
    vm_compute in Hz. discriminate.
Defined.

(** C6 as stated fails.  The sign: a supplied ratio of -1.0 is kept as it
    is, and a negative Rs gives a negative quotient.  Being a finite
    number: a supplied NaN stays NaN, a supplied infinity stays infinite,
    an infinite Rs over an infinite Ro gives NaN, and the quotient of the
    largest double by the smallest positive one overflows to infinity. *)
Lemma negative_ratio_passes_through :
  (exists r,
     normalize_reading float_of_no_str raw_negative_ratio "esp32_001" 0 = Ok r
     /\ rd_ratio r = minus_one /\ fle zero (rd_ratio r) = false) /\
  (exists r,
     normalize_reading float_of_no_str raw_negative_rs "esp32_001" 0 = Ok r
     /\ rd_ratio r = minus_half /\ fle zero (rd_ratio r) = false) /\
  (exists r,
     normalize_reading float_of_no_str raw_nan_ratio "esp32_001" 0 = Ok r
     /\ rd_ratio r = S754_nan /\ is_finite (rd_ratio r) = false) /\
  (exists r,
     normalize_reading float_of_no_str raw_infinite_ratio "esp32_001" 0
     = Ok r
     /\ rd_ratio r = S754_infinity false /\ is_finite (rd_ratio r) = false)
  /\
  (exists r,
     normalize_reading float_of_no_str raw_infinite_rs_ro "esp32_001" 0
     = Ok r
     /\ rd_ratio r = S754_nan /\ fle zero (rd_ratio r) = false) /\
  (exists r,
     normalize_reading float_of_no_str raw_overflow "esp32_001" 0 = Ok r
     /\ rd_ratio r = S754_infinity false /\ is_finite (rd_ratio r) = false).
Proof.
  repeat split; eexists; (split; [vm_compute; reflexivity|]);
    split; reflexivity.
Qed.

(** The quotient of two finite positive numbers can overflow. *)
Example ratio_overflows :
  nonneg_finite f_max = true /\ nonneg_finite f_tiny = true /\
  choose_ratio f_tiny f_max zero = S754_infinity false.
Proof. repeat split; vm_compute; reflexivity. Qed.

(** C4 as stated fails: a NaN ratio, which the normalizer lets through, is
    in none of the three bands, and takes the resolving branch. *)
Lemma nan_ratio_is_in_no_band :
  let W := RATIO_WARNING default_settings in
  let F := RATIO_FRESH default_settings in
  (exists r,
     normalize_reading float_of_no_str raw_nan_ratio "esp32_001" 0 = Ok r
     /\ rd_ratio r = S754_nan) /\
  fle S754_nan W = false /\
  flt W S754_nan && fle S754_nan F = false /\
  flt F S754_nan = false /\
  status_badge S754_nan W F = FRESH /\
  check_for_alerts default_settings quote_id format_const
    (AlertService_init default_settings Client_up) "esp32_001" S754_nan 0
  = resolve_alerts "esp32_001" None.
Proof.
  cbn zeta. split.
  - eexists. split; [vm_compute; reflexivity|reflexivity].
  - repeat split; reflexivity.
Qed.

Lemma severity_bands_witness :
  status_badge f0_4 f0_5 f0_8 = SPOILED /\
  status_badge f0_9 f0_5 f0_8 = FRESH.
Proof.
  pose proof (severity_bands default_settings quote_id format_const
                (AlertService_init default_settings Client_up) None
                "esp32_001" f0_4 0 eq_refl eq_refl) as (H1 & _).
  pose proof (severity_bands default_settings quote_id format_const
                (AlertService_init default_settings Client_up) None
                "esp32_001" f0_9 0 eq_refl eq_refl) as (_ & _ & H3 & _).
  split; [apply H1|apply H3]; reflexivity.
Defined.

(** C1 as stated fails: ten minutes after a first spoiled reading, with
    the first record still open and in the window, a second spoiled
    reading of the task leaves two open spoiled records. *)
Lemma second_spoiled_reading_adds_a_record :
  let w2 := run (collect_device_data default_settings float_of_no_str
                   binds_scalars quote_id format_const Client_up
                   (Some raw_spoiled) "esp32_001" ten_minutes)
                world_one_spoiled in
  let open_spoiled a :=
    String.eqb (device_id a) "esp32_001"
    && String.eqb (alert_type a) "spoiled" && negb (is_resolved a) in
  length (List.filter open_spoiled (alerts world_one_spoiled)) = 1%nat /\
  value (should_send_alert "esp32_001" "spoiled" ten_minutes)
    world_one_spoiled = false /\
  length (List.filter open_spoiled (alerts w2)) = 2%nat.
Proof. cbn zeta. repeat split; vm_compute; reflexivity. Qed.

Lemma cooldown_gates_the_call_witness :
  let w' := run (create_alert twilio_settings quote_id format_const
                   (AlertService_init twilio_settings Client_up)
                   "esp32_001" "spoiled" f0_4 (Some "+15550123")
                   ten_minutes) world_one_spoiled in
  length (alerts w') = 2%nat /\ log w' = [].
Proof.
  edestruct (cooldown_gates_the_call twilio_settings quote_id format_const
               (AlertService_init twilio_settings Client_up) None
               "esp32_001" "spoiled" f0_4 (Some "+15550123") ten_minutes
               world_one_spoiled) as (_ & _ & Hal & Hlog & _).
  - apply list_elem_of_here.
  - vm_compute; reflexivity.
  - cbn zeta. rewrite Hal, Hlog. split; reflexivity.
Defined.

Lemma fresh_reading_resolves_witness :
  let w1 := run (collect_device_data default_settings float_of_no_str
                   binds_scalars quote_id format_const Client_up
                   (Some raw_fresh) "esp32_001" ten_minutes)
                world_one_spoiled in
  length (alerts w1) = 1%nat /\
  forall a, a ∈ alerts w1 -> is_resolved a = true.
Proof.
  destruct (fresh_reading_resolves default_settings float_of_no_str
              binds_scalars quote_id format_const Client_up
              (AlertService_init default_settings Client_up) None
              "esp32_001" f0_9 ten_minutes world_one_spoiled)
    as (_ & _ & Hres & Hlen & _ & _ & Hpipe).
  - reflexivity.
  - reflexivity.
  - edestruct (Hpipe raw_fresh) as [Hc _].
    + vm_compute; reflexivity.
    + reflexivity.
    + reflexivity.
    + cbn zeta. rewrite Hc. split; [rewrite Hlen; reflexivity|].
      intros a Hin. apply Hres; [exact Hin|].
      apply list_elem_of_fmap in Hin as (b & -> & Hb).
      apply list_elem_of_singleton in Hb. subst b. reflexivity.
Defined.

(** A fresh reading whose status is a dictionary is not stored, and then
    the task stops before its alert step: the open record stays open. *)
Example fresh_reading_not_stored :
  let m := collect_device_data default_settings float_of_no_str
             binds_scalars quote_id format_const Client_up
             (Some raw_fresh_dict_status) "esp32_001" ten_minutes in
  value m world_one_spoiled = Error /\
  run m world_one_spoiled = world_one_spoiled.
Proof. cbn zeta. split; vm_compute; reflexivity. Qed.

Lemma create_alert_survives_notifier_failure_witness :
  let a := value (create_alert twilio_settings quote_id format_const
                    (AlertService_init twilio_settings Client_down)
                    "esp32_001" "spoiled" f0_4 (Some "+15550123") 0)
                 empty_world in
  device_id a = "esp32_001" /\ alert_type a = "spoiled" /\
  ratio_value a = f0_4 /\ call_sid a = None.
Proof.
  edestruct (create_alert_survives_notifier_failure twilio_settings quote_id
               format_const (AlertService_init twilio_settings Client_down)
               "esp32_001" "spoiled" f0_4 (Some "+15550123") 0 empty_world)
    as (_ & _ & Hd & Hk & Hr & Hs & _).
  - reflexivity.
  - cbn zeta. auto.
Defined.

(** With the credentials set and Twilio up, the same call gets its
    [call_sid] and the notifier is used once. *)
Example create_alert_places_the_call :
  let m := create_alert twilio_settings quote_id format_const
             (AlertService_init twilio_settings Client_up)
             "esp32_001" "spoiled" f0_4 (Some "+15550123") 0 in
  call_sid (value m empty_world) = Some "CA0001" /\
  length (log (run m empty_world)) = 2%nat.
Proof. cbn zeta. split; vm_compute; reflexivity. Qed.

Lemma no_recipient_no_notifier_witness :
  log (run (process_reading twilio_settings float_of_no_str binds_scalars
              quote_id format_const Client_up (Some "") raw_spoiled
              "esp32_001" 0)
           empty_world) = [].
Proof.
  edestruct (no_recipient_no_notifier twilio_settings float_of_no_str
               binds_scalars quote_id format_const Client_up
               (AlertService_init twilio_settings Client_up) (Some "") None
               raw_spoiled "esp32_001" "spoiled" f0_4 0 empty_world)
    as (_ & H & _).
  - reflexivity.
  - rewrite H. reflexivity.
Defined.

(** * More on the alert service *)

Lemma head_filter_None {A} (f : A -> bool) (l : list A) :
  head (List.filter f l) = None <-> forall a, a ∈ l -> f a = false.
Proof.
  induction l as [|x l IH]; cbn.
  - split; [intros _ a Ha; inversion Ha|reflexivity].
  - destruct (f x) eqn:E; cbn.
    + split; [discriminate|].
      intros H. specialize (H x (list_elem_of_here _ _)). congruence.
    + rewrite IH. split.
      * intros H a Ha. apply elem_of_cons in Ha as [->|Ha]; auto.
      * intros H a Ha. apply H. now apply list_elem_of_further.
Qed.

Lemma recent_unresolved_true device_id0 alert_type0 since a :
  recent_unresolved device_id0 alert_type0 since a = true <->
  device_id a = device_id0 /\ alert_type a = alert_type0 /\
  since <= timestamp a /\ is_resolved a = false.
Proof.
  unfold recent_unresolved.
  rewrite !andb_true_iff, !String.eqb_eq, Z.leb_le, negb_true_iff. tauto.
Qed.

(** When the gate of the cooldown is open. *)
Lemma gate_open_iff device_id0 alert_type0 now w :
  fst (should_send_alert device_id0 alert_type0 now w) = true <->
  forall a, a ∈ alerts w -> device_id a = device_id0 ->
    alert_type a = alert_type0 -> is_resolved a = false ->
    timestamp a < window_start alert_type0 now.
Proof.
  unfold should_send_alert. cbn [fst].
  fold (window_start alert_type0 now).
  destruct (head _) as [found|] eqn:E.
  - split; [discriminate|]. intros H. exfalso.
    assert (Hn : head (List.filter
                   (recent_unresolved device_id0 alert_type0
                      (window_start alert_type0 now)) (alerts w)) <> None)
      by (rewrite E; discriminate).
    apply Hn, head_filter_None. intros a Ha.
    destruct (recent_unresolved _ _ _ a) eqn:R; [|reflexivity].
    apply recent_unresolved_true in R as (Hd & Hk & Ht & Hr).
    specialize (H a Ha Hd Hk Hr). lia.
  - split; [|reflexivity]. intros _ a Ha Hd Hk Hr.
    pose proof (proj1 (head_filter_None _ _) E a Ha) as R.
    destruct (Z.lt_ge_cases (timestamp a) (window_start alert_type0 now))
      as [Hlt|Hge]; [exact Hlt|].
    assert (R' : recent_unresolved device_id0 alert_type0
                   (window_start alert_type0 now) a = true)
      by (apply recent_unresolved_true; auto).
    congruence.
Qed.

(** The gate of the cooldown is open exactly when every open record of the
    device and the kind is older than the window; asking changes
    nothing. *)
Theorem should_send_alert_spec device_id0 alert_type0 now w :
  (value (should_send_alert device_id0 alert_type0 now) w = true <->
   forall a, a ∈ alerts w -> device_id a = device_id0 ->
     alert_type a = alert_type0 -> is_resolved a = false ->
     timestamp a < window_start alert_type0 now) /\
  run (should_send_alert device_id0 alert_type0 now) w = w.
Proof. split; [apply gate_open_iff|reflexivity]. Qed.

Lemma to_resolve_true device_id0 alert_type0 a :
  to_resolve device_id0 alert_type0 a = true <->
  device_id a = device_id0 /\ is_resolved a = false /\
  (truthy alert_type0 = true -> alert_type0 = Some (alert_type a)).
Proof.
  unfold to_resolve.
  rewrite !andb_true_iff, String.eqb_eq, negb_true_iff.
  destruct alert_type0 as [k|]; cbn.
  - destruct (String.eqb k "") eqn:E; cbn.
    + intuition discriminate.
    + rewrite String.eqb_eq. intuition congruence.
  - intuition discriminate.
Qed.

(** After [resolve_alerts] for a device, with no kind or with the kind
    asked about, the gate of that device is open at every instant. *)
Theorem resolve_alerts_reopens_gate device_id0 alert_type0 kind now w :
  truthy kind = false \/ kind = Some alert_type0 ->
  value (should_send_alert device_id0 alert_type0 now)
        (run (resolve_alerts device_id0 kind) w) = true.
Proof.
  intros Hk. apply gate_open_iff.
  intros a Ha Hd Ht Hr. exfalso.
  unfold run in Ha. rewrite resolve_alerts_run in Ha. cbn in Ha.
  apply list_elem_of_fmap in Ha as (b & -> & Hb).
  fold (resolve_row device_id0 kind b) in *.
  unfold resolve_row in *.
  destruct (to_resolve device_id0 kind b) eqn:E; [discriminate|].
  assert (E' : to_resolve device_id0 kind b = true); [|congruence].
  apply to_resolve_true. split; [exact Hd|]. split; [exact Hr|].
  intros Htr. destruct Hk as [Hk| ->]; congruence.
Qed.

Section MoreAlertFacts.

Variable settings : Settings.
Variable quote : string -> string.
Variable format_3f : pyfloat -> string.
Variable Client : string -> string -> TwilioClient.

(** The record that [create_alert] has just inserted closes the gate for
    as long as it lies in the window. *)
Lemma gate_closed_after_create_alert self device_id0 alert_type0 ratio
    phone_number0 now1 now2 w :
  window_start alert_type0 now2 <= now1 ->
  should_send_alert device_id0 alert_type0 now2
    (run (create_alert settings quote format_3f self device_id0 alert_type0
            ratio phone_number0 now1) w)
  = (false,
     run (create_alert settings quote format_3f self device_id0 alert_type0
            ratio phone_number0 now1) w).
Proof.
  intros Hwin.
  destruct (create_alert_shape settings quote format_3f self device_id0
              alert_type0 ratio phone_number0 now1 w)
    as (sid & _ & Hal & _).
  cbn zeta in Hal.
  eapply should_send_alert_false.
  - rewrite Hal. apply elem_of_app. right. apply list_elem_of_here.
  - apply recent_unresolved_true. cbn. auto.
Qed.

(** At most one call per window: a second [create_alert] for the same
    device and kind, at an instant whose window still holds the first
    record, uses the notifier not at all and leaves [call_sid] unset,
    whatever the recipient and the service. *)
Theorem second_create_alert_places_no_call self self' device_id0 alert_type0
    ratio1 ratio2 phone1 phone2 now1 now2 w :
  window_start alert_type0 now2 <= now1 ->
  let w1 := run (create_alert settings quote format_3f self device_id0
                   alert_type0 ratio1 phone1 now1) w in
  log (run (create_alert settings quote format_3f self' device_id0
              alert_type0 ratio2 phone2 now2) w1) = log w1 /\
  call_sid (value (create_alert settings quote format_3f self' device_id0
                     alert_type0 ratio2 phone2 now2) w1) = None /\
  length (alerts (run (create_alert settings quote format_3f self'
                         device_id0 alert_type0 ratio2 phone2 now2) w1))
  = S (S (length (alerts w))).
Proof.
  intros Hwin w1.
  pose proof (gate_closed_after_create_alert self device_id0 alert_type0
                ratio1 phone1 now1 now2 w Hwin) as Hgate.
  fold w1 in Hgate.
  assert (Hsilent : (if truthy phone2
                     then fst (should_send_alert device_id0 alert_type0
                                 now2 w1)
                     else false) = false).
  { rewrite Hgate. destruct (truthy phone2); reflexivity. }
  unfold run, value.
  rewrite (create_alert_silent settings quote format_3f self' _ _ _ _ _ _
             Hsilent).
  cbn [fst snd log alerts call_sid new_alert].
  split; [reflexivity|]. split; [reflexivity|].
  destruct (create_alert_shape settings quote format_3f self device_id0
              alert_type0 ratio1 phone1 now1 w) as (sid & _ & Hal & _).
  cbn zeta in Hal. fold w1 in Hal. rewrite Hal.
  rewrite !length_app. cbn. lia.
Qed.

(** With a recipient, an open gate and Twilio configured, [create_alert]
    uses the notifier once: one call to the recipient, from the configured
    number, to the webhook with the quoted context in its query, and the
    answer of Twilio is the [call_sid] of the record. *)
Theorem create_alert_places_one_call client self device_id0 alert_type0
    ratio phone now w :
  phone <> "" ->
  twilio_client self = Some client ->
  value (should_send_alert device_id0 alert_type0 now) w = true ->
  let context := ("Food spoilage alert for device " ++ device_id0
                  ++ ". Current ratio is " ++ format_3f ratio ++ ".")%string in
  let url := (WEBHOOK_URL settings ++ "?context=" ++ quote context)%string in
  let from_ := TWILIO_PHONE_NUMBER settings in
  let a := value (create_alert settings quote format_3f self device_id0
                    alert_type0 ratio (Some phone) now) w in
  log (run (create_alert settings quote format_3f self device_id0
              alert_type0 ratio (Some phone) now) w)
  = log w ++ [VoiceAlert phone context; TwilioCall phone from_ url] /\
  call_sid a = client phone from_ url /\
  phone_number a = Some phone /\ is_resolved a = false.
Proof.
  intros Hp Hc Hgate. cbn zeta.
  assert (Hp' : truthy (Some phone) = true).
  { cbn. apply negb_true_iff, String.eqb_neq, Hp. }
  unfold value, run in *.
  rewrite (create_alert_calling settings quote format_3f self _ _ _ _ _ _
             Hp' Hgate).
  cbn [fst snd log call_sid phone_number is_resolved new_alert].
  unfold call_events, call_result. rewrite Hc.
  repeat split; reflexivity.
Qed.

(** Without both Twilio credentials the service has no client: whatever
    alert is created, no call is asked of Twilio and [call_sid] stays
    unset. *)
Theorem no_credentials_no_call device_id0 alert_type0 ratio phone_number0
    now w :
  truthy (TWILIO_ACCOUNT_SID settings) = false \/
  truthy (TWILIO_AUTH_TOKEN settings) = false ->
  let self := AlertService_init settings Client in
  call_sid (value (create_alert settings quote format_3f self device_id0
                     alert_type0 ratio phone_number0 now) w) = None /\
  exists evs,
    log (run (create_alert settings quote format_3f self device_id0
                alert_type0 ratio phone_number0 now) w) = log w ++ evs /\
    forall to from_ url, TwilioCall to from_ url ∉ evs.
Proof.
  intros Hcred self.
  assert (Hnone : twilio_client self = None).
  { subst self. unfold AlertService_init. cbn.
    destruct Hcred as [-> | ->]; [reflexivity|].
    rewrite andb_false_r. reflexivity. }
  destruct (if truthy phone_number0
            then fst (should_send_alert device_id0 alert_type0 now w)
            else false) eqn:E.
  - destruct phone_number0 as [phone|]; [|discriminate].
    destruct (truthy (Some phone)) eqn:Hp; [|discriminate].
    unfold value, run.
    rewrite (create_alert_calling settings quote format_3f self _ _ _ _ _ _
               Hp E).
    cbn [fst snd log call_sid new_alert].
    unfold call_result, call_events. rewrite Hnone.
    split; [reflexivity|]. eexists. split; [reflexivity|].
    intros to from_ url Hin.
    apply list_elem_of_singleton in Hin. discriminate.
  - unfold value, run.
    rewrite (create_alert_silent settings quote format_3f self _ _ _ _ _ _ E).
    cbn [fst snd log call_sid new_alert].
    split; [reflexivity|]. exists []. split; [symmetry; apply app_nil_r|].
    intros to from_ url Hin. inversion Hin.
Qed.

End MoreAlertFacts.

(** ** Resolving *)

Lemma to_resolve_resolved device_id0 alert_type0 a :
  to_resolve device_id0 alert_type0 (set_is_resolved true a) = false.
Proof. unfold to_resolve. cbn. rewrite andb_false_r. reflexivity. Qed.

Lemma resolve_row_cases device_id0 alert_type0 a :
  (to_resolve device_id0 alert_type0 a = true /\
   resolve_row device_id0 alert_type0 a = set_is_resolved true a) \/
  (to_resolve device_id0 alert_type0 a = false /\
   resolve_row device_id0 alert_type0 a = a).
Proof.
  unfold resolve_row. destruct (to_resolve device_id0 alert_type0 a); auto.
Qed.

(** [resolve_alerts] touches the flag [is_resolved] only, of open rows of
    the device only, and of the given kind only when one is given: no row
    is added, removed or moved, and the readings, the cache and the
    notifier are left alone. *)
Theorem resolve_alerts_frame device_id0 alert_type0 w :
  let w' := run (resolve_alerts device_id0 alert_type0) w in
  sensor_readings w' = sensor_readings w /\ redis w' = redis w /\
  log w' = log w /\ alert_seq w' = alert_seq w /\
  length (alerts w') = length (alerts w) /\
  forall (i : nat) a, alerts w !! i = Some a ->
    exists a', alerts w' !! i = Some a' /\
      (a' = a \/ a' = set_is_resolved true a) /\
      (device_id a <> device_id0 -> a' = a) /\
      (is_resolved a = true -> a' = a) /\
      (forall kind, alert_type0 = Some kind -> kind <> "" ->
         alert_type a <> kind -> a' = a).
Proof.
  cbn zeta. unfold run. rewrite resolve_alerts_run. cbn [snd alerts
    sensor_readings redis log alert_seq].
  repeat (split; [reflexivity|]).
  split; [apply length_fmap|].
  intros i a Hi. exists (resolve_row device_id0 alert_type0 a).
  split; [rewrite list_lookup_fmap, Hi; reflexivity|].
  destruct (resolve_row_cases device_id0 alert_type0 a) as [[Ht ->]|[Hf ->]].
  - apply to_resolve_true in Ht as (Hd & Hr & Hk).
    split; [auto|]. split; [congruence|]. split; [congruence|].
    intros kind -> Hne Hty. exfalso.
    assert (Htr : truthy (Some kind) = true).
    { cbn. apply negb_true_iff, String.eqb_neq, Hne. }
    specialize (Hk Htr). congruence.
  - auto.
Qed.

Lemma resolve_row_commute d1 k1 d2 k2 a :
  resolve_row d1 k1 (resolve_row d2 k2 a)
  = resolve_row d2 k2 (resolve_row d1 k1 a).
Proof.
  destruct (resolve_row_cases d1 k1 a) as [[H1 E1]|[H1 E1]],
           (resolve_row_cases d2 k2 a) as [[H2 E2]|[H2 E2]];
    rewrite E1, E2; unfold resolve_row;
    rewrite ?to_resolve_resolved, ?H1, ?H2; reflexivity.
Qed.

(** Resolutions commute, whatever their devices and kinds, and resolving
    one kind before resolving all kinds of the device adds nothing. *)
Theorem resolve_alerts_commute d1 k1 d2 k2 w :
  run (resolve_alerts d1 k1) (run (resolve_alerts d2 k2) w)
  = run (resolve_alerts d2 k2) (run (resolve_alerts d1 k1) w) /\
  run (resolve_alerts d1 None) (run (resolve_alerts d1 k1) w)
  = run (resolve_alerts d1 None) w.
Proof.
  unfold run. rewrite !resolve_alerts_run. cbn. split.
  - f_equal. rewrite <- !list_fmap_compose.
    apply list_fmap_ext. intros i a _. apply resolve_row_commute.
  - f_equal. rewrite <- !list_fmap_compose.
    apply list_fmap_ext. intros i a _. cbn.
    destruct (resolve_row_cases d1 k1 a) as [[H1 E1]|[H1 E1]];
      rewrite E1; [|reflexivity].
    apply to_resolve_true in H1 as (Hd & Hr & _).
    unfold resolve_row. rewrite to_resolve_resolved.
    assert (E : to_resolve d1 None a = true).
    { apply to_resolve_true. cbn. intuition discriminate. }
    rewrite E. reflexivity.
Qed.

(** * The two pipelines *)

Section PipelineFacts.

Variable settings : Settings.
Variable float_of_str : string -> option pyfloat.
Variable driver_binds : pyval -> bool.
Variable quote : string -> string.
Variable format_3f : pyfloat -> string.
Variable Client : string -> string -> TwilioClient.

(** The entry that [save_reading] puts in the cache at the instant [now]. *)
Lemma save_reading_run rd now w :
  bindable driver_binds (rd_status rd) = true ->
  snd (save_reading settings driver_binds rd now w)
  = {| sensor_readings := sensor_readings w ++ [saved_row settings w rd];
       reading_seq := reading_seq w + 1;
       alerts := alerts w; alert_seq := alert_seq w;
       redis := <[cache_key_of (rd_device_id rd) :=
                    {| ce_value := rd;
                       ce_expires := now + 300 * microseconds_per_second |}]>
                  (redis w);
       log := log w |}.
Proof. intros B. rewrite (save_reading_stores _ _ _ _ _ B). reflexivity. Qed.

(** The normalizer stamps the reading with the device and the instant it
    was given. *)
Lemma normalize_reading_fields raw_data device_id0 now rd :
  normalize_reading float_of_str raw_data device_id0 now = Ok rd ->
  rd_device_id rd = device_id0 /\ rd_timestamp rd = now.
Proof.
  unfold normalize_reading.
  destruct (safe_float _ (get raw_data "Ro" _) _); [|discriminate].
  destruct (safe_float _ (get raw_data "Rs" _) _); [|discriminate].
  destruct (safe_float _ (get raw_data "ratio" _) _); [|discriminate].
  destruct (safe_float _ (get raw_data "Vout" _) _); [|discriminate].
  cbn. intros [= <-]. split; reflexivity.
Qed.

(** The alert step of the task, branch by branch. *)
Lemma check_for_alerts_run self device_id0 ratio now w :
  check_for_alerts settings quote format_3f self device_id0 ratio now w
  = (tt,
     if fle ratio (RATIO_WARNING settings) then
       {| sensor_readings := sensor_readings w;
          reading_seq := reading_seq w;
          alerts := alerts w ++
            [new_alert w device_id0 "spoiled" ratio None None now];
          alert_seq := alert_seq w + 1;
          redis := redis w; log := log w |}
     else if fle ratio (RATIO_FRESH settings) then
       {| sensor_readings := sensor_readings w;
          reading_seq := reading_seq w;
          alerts := alerts w ++
            [new_alert w device_id0 "warning" ratio None None now];
          alert_seq := alert_seq w + 1;
          redis := redis w; log := log w |}
     else
       {| sensor_readings := sensor_readings w;
          reading_seq := reading_seq w;
          alerts := resolve_row device_id0 None <$> alerts w;
          alert_seq := alert_seq w;
          redis := redis w; log := log w |}).
Proof.
  unfold check_for_alerts.
  destruct (fle ratio (RATIO_WARNING settings));
    [|destruct (fle ratio (RATIO_FRESH settings))].
  3: reflexivity.
  all: unfold mbind, db_bind; rewrite create_alert_silent by reflexivity;
    reflexivity.
Qed.

(** [create_alert], whatever the notifier does: one row more, and maybe
    events in the log. *)
Lemma create_alert_world self device_id0 alert_type0 ratio phone_number0
    now w :
  exists sid evs,
    create_alert settings quote format_3f self device_id0 alert_type0 ratio
      phone_number0 now w
    = (new_alert w device_id0 alert_type0 ratio phone_number0 sid now,
       {| sensor_readings := sensor_readings w;
          reading_seq := reading_seq w;
          alerts := alerts w ++
            [new_alert w device_id0 alert_type0 ratio phone_number0 sid now];
          alert_seq := alert_seq w + 1;
          redis := redis w; log := log w ++ evs |}).
Proof.
  destruct (if truthy phone_number0
            then fst (should_send_alert device_id0 alert_type0 now w)
            else false) eqn:E.
  - destruct phone_number0 as [phone|]; [|discriminate].
    destruct (truthy (Some phone)) eqn:Hp; [|discriminate].
    do 2 eexists.
    apply (create_alert_calling settings quote format_3f self _ _ _ _ _ _
             Hp E).
  - exists None, []. rewrite app_nil_r.
    apply (create_alert_silent settings quote format_3f self _ _ _ _ _ _ E).
Qed.

(** The alert step of the dashboard, branch by branch. *)
Lemma check_for_alerts_app_run self alert_phone device_id0 ratio now w :
  check_for_alerts_app settings quote format_3f self alert_phone device_id0
    ratio now w
  = (tt,
     if fle ratio (RATIO_WARNING settings) then
       if truthy alert_phone
          && fst (should_send_alert device_id0 "spoiled" now w)
       then snd (create_alert settings quote format_3f self device_id0
                   "spoiled" ratio alert_phone now w)
       else w
     else if fle ratio (RATIO_FRESH settings) then
       {| sensor_readings := sensor_readings w;
          reading_seq := reading_seq w;
          alerts := alerts w ++
            [new_alert w device_id0 "warning" ratio None None now];
          alert_seq := alert_seq w + 1;
          redis := redis w; log := log w |}
     else
       {| sensor_readings := sensor_readings w;
          reading_seq := reading_seq w;
          alerts := resolve_row device_id0 None <$> alerts w;
          alert_seq := alert_seq w;
          redis := redis w; log := log w |}).
Proof.
  unfold check_for_alerts_app.
  destruct (fle ratio (RATIO_WARNING settings));
    [|destruct (fle ratio (RATIO_FRESH settings))].
  - unfold mbind, db_bind.
    destruct (truthy alert_phone); cbn [andb]; [|reflexivity].
    unfold should_send_alert at 1 2. cbn [fst].
    destruct (match head _ with Some _ => false | None => true end);
      [|reflexivity].
    destruct (create_alert _ _ _ _ _ _ _ _ _ w). reflexivity.
  - unfold mbind, db_bind. rewrite create_alert_silent by reflexivity.
    reflexivity.
  - reflexivity.
Qed.

Lemma collect_device_data_ok raw_data device_id0 now rd w :
  normalize_reading float_of_str raw_data device_id0 now = Ok rd ->
  bindable driver_binds (rd_status rd) = true ->
  collect_device_data settings float_of_str driver_binds quote format_3f
    Client (Some raw_data) device_id0 now w
  = (Success (rd_ratio rd),
     snd (check_for_alerts settings quote format_3f
            (AlertService_init settings Client) device_id0 (rd_ratio rd) now
            (snd (save_reading settings driver_binds rd now w)))).
Proof.
  intros H B.
  rewrite (collect_device_data_run settings float_of_str driver_binds quote
             format_3f Client _ _ _ _ _ H), B.
  reflexivity.
Qed.

Lemma collect_device_data_unbound raw_data device_id0 now rd w :
  normalize_reading float_of_str raw_data device_id0 now = Ok rd ->
  bindable driver_binds (rd_status rd) = false ->
  collect_device_data settings float_of_str driver_binds quote format_3f
    Client (Some raw_data) device_id0 now w
  = (Error, w).
Proof.
  intros H B.
  rewrite (collect_device_data_run settings float_of_str driver_binds quote
             format_3f Client _ _ _ _ _ H), B.
  reflexivity.
Qed.

Lemma process_reading_ok alert_phone raw_data device_id0 now rd w :
  normalize_reading float_of_str raw_data device_id0 now = Ok rd ->
  bindable driver_binds (rd_status rd) = true ->
  process_reading settings float_of_str driver_binds quote format_3f Client
    alert_phone raw_data device_id0 now w
  = (Ok rd,
     snd (check_for_alerts_app settings quote format_3f
            (AlertService_init settings Client) alert_phone device_id0
            (rd_ratio rd) now
            (snd (save_reading settings driver_binds rd now w)))).
Proof.
  intros H B.
  rewrite (process_reading_run settings float_of_str driver_binds quote
             format_3f Client _ _ _ _ _ _ H), B.
  reflexivity.
Qed.

Lemma process_reading_unbound alert_phone raw_data device_id0 now rd w :
  normalize_reading float_of_str raw_data device_id0 now = Ok rd ->
  bindable driver_binds (rd_status rd) = false ->
  process_reading settings float_of_str driver_binds quote format_3f Client
    alert_phone raw_data device_id0 now w
  = (Raise DBAPIError, w).
Proof.
  intros H B.
  rewrite (process_reading_run settings float_of_str driver_binds quote
             format_3f Client _ _ _ _ _ _ H), B.
  reflexivity.
Qed.

(** The task returns its error result exactly when fetching failed, the
    normalizer raised, or the status of the normalized reading could not be
    stored; and then it has written nothing: no reading, no alert, no cache
    entry. *)
Theorem collect_device_data_error fetched device_id0 now w :
  (value (collect_device_data settings float_of_str driver_binds quote
            format_3f Client fetched device_id0 now) w = Error <->
   fetched = None \/
   (exists raw_data e,
      fetched = Some raw_data /\
      normalize_reading float_of_str raw_data device_id0 now = Raise e) \/
   (exists raw_data rd,
      fetched = Some raw_data /\
      normalize_reading float_of_str raw_data device_id0 now = Ok rd /\
      bindable driver_binds (rd_status rd) = false)) /\
  (value (collect_device_data settings float_of_str driver_binds quote
            format_3f Client fetched device_id0 now) w = Error ->
   run (collect_device_data settings float_of_str driver_binds quote
          format_3f Client fetched device_id0 now) w = w).
Proof.
  unfold value, run.
  destruct fetched as [raw_data|].
  - destruct (normalize_reading float_of_str raw_data device_id0 now)
      as [rd|e] eqn:E.
    + destruct (bindable driver_binds (rd_status rd)) eqn:B.
      * rewrite (collect_device_data_ok _ _ _ _ _ E B). cbn [fst snd].
        split; [|discriminate]. split; [discriminate|].
        intros [H|[(raw' & e & [= <-] & H)|(raw' & rd' & [= <-] & H & B')]];
          congruence.
      * rewrite (collect_device_data_unbound _ _ _ _ _ E B). cbn [fst snd].
        split; [|reflexivity]. split; [|reflexivity].
        intros _. right. right. eauto.
    + unfold collect_device_data. rewrite E. cbn.
      split; [|reflexivity]. split; [|reflexivity].
      intros _. right. left. eauto.
  - cbn. split; [|reflexivity]. split; auto.
Qed.

(** When the payload normalizes and its status can be stored, the task
    returns the ratio it stored: one row more in [sensor_readings], with
    the fields of the reading and the flag of its ratio, and the reading in
    the cache under the key of the device, to expire 300 seconds later. *)
Theorem collect_device_data_persists raw_data device_id0 now rd w :
  normalize_reading float_of_str raw_data device_id0 now = Ok rd ->
  bindable driver_binds (rd_status rd) = true ->
  let w' := run (collect_device_data settings float_of_str driver_binds
                   quote format_3f Client (Some raw_data) device_id0 now)
                w in
  value (collect_device_data settings float_of_str driver_binds quote
           format_3f Client (Some raw_data) device_id0 now) w
  = Success (rd_ratio rd) /\
  sensor_readings w' = sensor_readings w ++ [saved_row settings w rd] /\
  sr_device_id (saved_row settings w rd) = device_id0 /\
  sr_timestamp (saved_row settings w rd) = now /\
  redis w' !! cache_key_of device_id0
  = Some {| ce_value := rd;
            ce_expires := now + 300 * microseconds_per_second |} /\
  forall at_ : Z,
    value (redis_get (cache_key_of device_id0) at_) w'
    = if (at_ <? now + 300 * microseconds_per_second)%Z
      then Some rd else None.
Proof.
  intros H B. cbn zeta. unfold value, run.
  rewrite (collect_device_data_ok _ _ _ _ _ H B). cbn [fst snd].
  rewrite (save_reading_run _ _ _ B), check_for_alerts_run. cbn [snd].
  destruct (normalize_reading_fields _ _ _ _ H) as [Hd Ht].
  split; [reflexivity|].
  assert (Hw : forall w1 w2 w3 : World,
            sensor_readings w1 = sensor_readings w2 ->
            sensor_readings w1 = sensor_readings w3 ->
            redis w1 = redis w2 -> redis w1 = redis w3 ->
            forall b c : bool,
              sensor_readings (if b then w1 else if c then w2 else w3)
              = sensor_readings w1 /\
              redis (if b then w1 else if c then w2 else w3) = redis w1).
  { intros w1 w2 w3 H2 H3 R2 R3 [] []; cbn; auto. }
  match goal with
  | |- context [if ?b then ?w1 else if ?c then ?w2 else ?w3] =>
      destruct (Hw w1 w2 w3 eq_refl eq_refl eq_refl eq_refl b c) as [Hs Hr]
  end.
  unfold redis_get. cbn [fst].
  rewrite Hs, Hr. cbn [sensor_readings redis].
  split; [reflexivity|]. split; [exact Hd|]. split; [exact Ht|].
  rewrite Hd, lookup_insert_eq. split; reflexivity.
Qed.

Lemma append_only_shapes (l l' : list Alert) device_id0 x :
  l' = l \/ l' = resolve_row device_id0 None <$> l \/ l' = l ++ [x] ->
  (length l <= length l' <= S (length l))%nat /\
  (forall (i : nat) a, l !! i = Some a ->
     exists a', l' !! i = Some a' /\
       (a' = a \/
        (is_resolved a = false /\ device_id a = device_id0 /\
         a' = set_is_resolved true a))) /\
  (forall a', l' !! length l = Some a' -> l' = l ++ [x] /\ a' = x).
Proof.
  intros [-> | [-> | ->]].
  - split; [lia|]. split; [eauto|].
    intros a' Ha. apply lookup_lt_Some in Ha. lia.
  - rewrite length_fmap. split; [lia|]. split.
    + intros i a Hi. eexists. rewrite list_lookup_fmap, Hi.
      split; [reflexivity|].
      destruct (resolve_row_cases device_id0 None a) as [[Ht ->]|[_ ->]];
        [|auto].
      apply to_resolve_true in Ht as (Hd & Hr & _). auto.
    + intros a' Ha. apply lookup_lt_Some in Ha.
      rewrite length_fmap in Ha. lia.
  - rewrite length_app. cbn. split; [lia|]. split.
    + intros i a Hi. exists a. split; [|auto].
      rewrite lookup_app_l; [exact Hi|]. eapply lookup_lt_Some, Hi.
    + intros a' Ha. rewrite list_lookup_middle in Ha by reflexivity.
      split; congruence.
Qed.

(** The task only ever adds to the alerts: no row is removed or moved, a
    row changes only by an open row of the device becoming resolved, and at
    most one row is appended, which is then an open spoiled or warning
    alert of the device for the ratio returned, stamped with the instant,
    without recipient and without call. *)
Theorem collect_device_data_append_only fetched device_id0 now w :
  let w' := run (collect_device_data settings float_of_str driver_binds
                   quote format_3f Client fetched device_id0 now) w in
  (length (alerts w) <= length (alerts w') <= S (length (alerts w)))%nat /\
  (forall (i : nat) a, alerts w !! i = Some a ->
     exists a', alerts w' !! i = Some a' /\
       (a' = a \/
        (is_resolved a = false /\ device_id a = device_id0 /\
         a' = set_is_resolved true a))) /\
  (forall a', alerts w' !! length (alerts w) = Some a' ->
     device_id a' = device_id0 /\ is_resolved a' = false /\
     timestamp a' = now /\ call_sid a' = None /\ phone_number a' = None /\
     (alert_type a' = "spoiled" \/ alert_type a' = "warning") /\
     value (collect_device_data settings float_of_str driver_binds quote
              format_3f Client fetched device_id0 now) w
     = Success (ratio_value a')).
Proof.
  cbn zeta. unfold value, run.
  assert (Hsame : forall x,
            (length (alerts w) <= length (alerts w)
             <= S (length (alerts w)))%nat /\
            (forall (i : nat) a, alerts w !! i = Some a ->
               exists a', alerts w !! i = Some a' /\
                 (a' = a \/
                  (is_resolved a = false /\ device_id a = device_id0 /\
                   a' = set_is_resolved true a))) /\
            (forall a', alerts w !! length (alerts w) = Some a' ->
               alerts w = alerts w ++ [x] /\ a' = x))
    by (intros x; apply (append_only_shapes _ _ device_id0 x); auto).
  destruct fetched as [raw_data|].
  2: { cbn. destruct (Hsame (new_alert w "" "" zero None None 0))
         as (H1 & H2 & H3).
       split; [exact H1|]. split; [exact H2|].
       intros a' Ha. apply lookup_lt_Some in Ha. lia. }
  destruct (normalize_reading float_of_str raw_data device_id0 now)
    as [rd|e] eqn:E.
  2: { unfold collect_device_data. rewrite E. cbn.
       destruct (Hsame (new_alert w "" "" zero None None 0))
         as (H1 & H2 & H3).
       split; [exact H1|]. split; [exact H2|].
       intros a' Ha. apply lookup_lt_Some in Ha. lia. }
  destruct (bindable driver_binds (rd_status rd)) eqn:B.
  2: { rewrite (collect_device_data_unbound _ _ _ _ _ E B). cbn [fst snd].
       destruct (Hsame (new_alert w "" "" zero None None 0))
         as (H1 & H2 & H3).
       split; [exact H1|]. split; [exact H2|].
       intros a' Ha. apply lookup_lt_Some in Ha. lia. }
  rewrite (collect_device_data_ok _ _ _ _ _ E B). cbn [fst snd].
  rewrite (save_reading_run _ _ _ B), check_for_alerts_run. cbn [snd].
  destruct (fle (rd_ratio rd) (RATIO_WARNING settings));
    [|destruct (fle (rd_ratio rd) (RATIO_FRESH settings))];
    cbn [alerts alert_seq].
  - destruct (append_only_shapes (alerts w)
                (alerts w ++ [new_alert w device_id0 "spoiled" (rd_ratio rd)
                                None None now]) device_id0
                (new_alert w device_id0 "spoiled" (rd_ratio rd) None None
                   now)) as (H1 & H2 & H3); [auto|].
    split; [exact H1|]. split; [exact H2|].
    intros a' Ha. destruct (H3 a' Ha) as [_ ->]. cbn. auto 10.
  - destruct (append_only_shapes (alerts w)
                (alerts w ++ [new_alert w device_id0 "warning" (rd_ratio rd)
                                None None now]) device_id0
                (new_alert w device_id0 "warning" (rd_ratio rd) None None
                   now)) as (H1 & H2 & H3); [auto|].
    split; [exact H1|]. split; [exact H2|].
    intros a' Ha. destruct (H3 a' Ha) as [_ ->]. cbn. auto 10.
  - destruct (append_only_shapes (alerts w)
                (resolve_row device_id0 None <$> alerts w) device_id0
                (new_alert w "" "" zero None None 0)) as (H1 & H2 & H3);
      [auto|].
    split; [exact H1|]. split; [exact H2|].
    intros a' Ha. apply lookup_lt_Some in Ha.
    rewrite length_fmap in Ha. lia.
Qed.

Lemma check_for_alerts_frame self device_id0 ratio now w :
  let w' := run (check_for_alerts settings quote format_3f self device_id0
                   ratio now) w in
  sensor_readings w' = sensor_readings w /\ redis w' = redis w.
Proof.
  cbn zeta. unfold run. rewrite check_for_alerts_run. cbn [snd].
  destruct (fle ratio (RATIO_WARNING settings));
    [|destruct (fle ratio (RATIO_FRESH settings))]; auto.
Qed.

Lemma check_for_alerts_app_frame self alert_phone device_id0 ratio now w :
  let w' := run (check_for_alerts_app settings quote format_3f self
                   alert_phone device_id0 ratio now) w in
  sensor_readings w' = sensor_readings w /\ redis w' = redis w.
Proof.
  cbn zeta. unfold run. rewrite check_for_alerts_app_run. cbn [snd].
  destruct (fle ratio (RATIO_WARNING settings));
    [|destruct (fle ratio (RATIO_FRESH settings))]; auto.
  destruct (truthy alert_phone && _); [|auto].
  destruct (create_alert_world self device_id0 "spoiled" ratio alert_phone
              now w) as (sid & evs & ->). auto.
Qed.

(** The readings after either pipeline: as before, or one saved row more. *)
Lemma pipelines_readings fetched alert_phone raw_data device_id0 now w :
  (sensor_readings (run (collect_device_data settings float_of_str
                           driver_binds quote format_3f Client fetched
                           device_id0 now) w)
   = sensor_readings w \/
   exists rd,
     sensor_readings (run (collect_device_data settings float_of_str
                             driver_binds quote format_3f Client fetched
                             device_id0 now) w)
     = sensor_readings w ++ [saved_row settings w rd]) /\
  (sensor_readings (run (process_reading settings float_of_str driver_binds
                           quote format_3f Client alert_phone raw_data
                           device_id0 now) w)
   = sensor_readings w \/
   exists rd,
     sensor_readings (run (process_reading settings float_of_str
                             driver_binds quote format_3f Client alert_phone
                             raw_data device_id0 now) w)
     = sensor_readings w ++ [saved_row settings w rd]).
Proof.
  unfold run. split.
  - destruct fetched as [raw|]; [|left; reflexivity].
    destruct (normalize_reading float_of_str raw device_id0 now)
      as [rd|e] eqn:E.
    + destruct (bindable driver_binds (rd_status rd)) eqn:B.
      * right. exists rd. rewrite (collect_device_data_ok _ _ _ _ _ E B).
        cbn [snd].
        destruct (check_for_alerts_frame (AlertService_init settings Client)
                    device_id0 (rd_ratio rd) now
                    (snd (save_reading settings driver_binds rd now w)))
          as [Hs _].
        unfold run in Hs. rewrite Hs, (save_reading_run _ _ _ B).
        reflexivity.
      * left. rewrite (collect_device_data_unbound _ _ _ _ _ E B).
        reflexivity.
    + left. unfold collect_device_data. rewrite E. reflexivity.
  - destruct (normalize_reading float_of_str raw_data device_id0 now)
      as [rd|e] eqn:E.
    + destruct (bindable driver_binds (rd_status rd)) eqn:B.
      * right. exists rd. rewrite (process_reading_ok _ _ _ _ _ _ E B).
        cbn [snd].
        destruct (check_for_alerts_app_frame
                    (AlertService_init settings Client) alert_phone
                    device_id0 (rd_ratio rd) now
                    (snd (save_reading settings driver_binds rd now w)))
          as [Hs _].
        unfold run in Hs. rewrite Hs, (save_reading_run _ _ _ B).
        reflexivity.
      * left. rewrite (process_reading_unbound _ _ _ _ _ _ E B).
        reflexivity.
    + left. unfold process_reading. rewrite E. reflexivity.
Qed.

(** Both pipelines keep the table of readings consistent: when the flag
    [is_alert] of every row agrees with its ratio and the warning
    threshold, it still does after the task and after the dashboard have
    processed a reading. *)
Theorem is_alert_flag_invariant fetched alert_phone raw_data device_id0 now
    w :
  Forall (flag_ok settings) (sensor_readings w) ->
  Forall (flag_ok settings)
    (sensor_readings (run (collect_device_data settings float_of_str
                             driver_binds quote format_3f Client fetched
                             device_id0 now) w)) /\
  Forall (flag_ok settings)
    (sensor_readings (run (process_reading settings float_of_str
                             driver_binds quote format_3f Client alert_phone
                             raw_data device_id0 now) w)).
Proof.
  intros Hinv.
  destruct (pipelines_readings fetched alert_phone raw_data device_id0 now w)
    as [[-> | [rd ->]] [-> | [rd' ->]]];
    split; try exact Hinv;
    apply Forall_app; (split; [exact Hinv|]);
    apply Forall_singleton; reflexivity.
Qed.

(** What a reading that normalizes and can be stored leaves behind in the
    dashboard. *)
Lemma process_reading_stores alert_phone raw_data device_id0 now rd w :
  normalize_reading float_of_str raw_data device_id0 now = Ok rd ->
  bindable driver_binds (rd_status rd) = true ->
  let w' := run (process_reading settings float_of_str driver_binds quote
                   format_3f Client alert_phone raw_data device_id0 now)
                w in
  value (process_reading settings float_of_str driver_binds quote format_3f
           Client alert_phone raw_data device_id0 now) w = Ok rd /\
  sensor_readings w' = sensor_readings w ++ [saved_row settings w rd] /\
  redis w' !! cache_key_of device_id0
  = Some {| ce_value := rd;
            ce_expires := now + 300 * microseconds_per_second |}.
Proof.
  intros E B. cbn zeta. unfold value, run.
  rewrite (process_reading_ok _ _ _ _ _ _ E B). cbn [fst snd].
  destruct (check_for_alerts_app_frame (AlertService_init settings Client)
              alert_phone device_id0 (rd_ratio rd) now
              (snd (save_reading settings driver_binds rd now w)))
    as [Hs Hr].
  unfold run in Hs, Hr. rewrite Hs, Hr, (save_reading_run _ _ _ B). cbn.
  destruct (normalize_reading_fields _ _ _ _ E) as [-> _].
  split; [reflexivity|]. split; [reflexivity|]. apply lookup_insert_eq.
Qed.



(** A payload none of whose four numeric fields gives a number is read as
    all zeros; when its status can be stored and the warning threshold is
    at least zero, the task then stores that reading and records a spoiled
    alert for the device. *)
Theorem unusable_payload_reads_as_spoiled raw_data device_id0 now w :
  unusable float_of_str (raw_data !! "Ro") ->
  unusable float_of_str (raw_data !! "Rs") ->
  unusable float_of_str (raw_data !! "ratio") ->
  unusable float_of_str (raw_data !! "Vout") ->
  bindable driver_binds (get raw_data "status" (PyStr "")) = true ->
  fle zero (RATIO_WARNING settings) = true ->
  let rd := {| rd_device_id := device_id0; rd_ro := zero; rd_rs := zero;
               rd_ratio := zero; rd_vout := zero;
               rd_status := get raw_data "status" (PyStr "");
               rd_timestamp := now |} in
  let w' := run (collect_device_data settings float_of_str driver_binds
                   quote format_3f Client (Some raw_data) device_id0 now)
                w in
  normalize_reading float_of_str raw_data device_id0 now = Ok rd /\
  value (collect_device_data settings float_of_str driver_binds quote
           format_3f Client (Some raw_data) device_id0 now) w
  = Success zero /\
  sensor_readings w' = sensor_readings w ++ [saved_row settings w rd] /\
  sr_is_alert (saved_row settings w rd) = true /\
  alerts w' = alerts w ++
    [new_alert w device_id0 "spoiled" zero None None now].
Proof.
  intros Hro Hrs Hratio Hvout B HW rd. cbn zeta.
  assert (Hun : forall key d,
            unusable float_of_str (raw_data !! key) ->
            d = PyNone \/ d = PyFloat zero ->
            safe_float float_of_str (get raw_data key d) zero = Ok zero).
  { intros key d Hu Hd. unfold get.
    destruct (raw_data !! key) as [v|].
    - apply safe_float_unusable. destruct v; cbn in *; auto.
    - destruct Hd as [-> | ->]; reflexivity. }
  assert (E : normalize_reading float_of_str raw_data device_id0 now
              = Ok rd).
  { apply (normalize_reading_ok float_of_str raw_data device_id0 now
             zero zero zero zero); apply Hun; auto. }
  split; [exact E|]. unfold value, run.
  rewrite (collect_device_data_ok _ _ _ rd _ E B). cbn [fst snd rd_ratio].
  split; [reflexivity|].
  change (rd_ratio rd) with zero.
  rewrite check_for_alerts_run, HW, (save_reading_run rd now w B).
  cbn [snd sensor_readings alerts alert_seq].
  split; [reflexivity|]. split; [exact HW|]. reflexivity.
Qed.

End PipelineFacts.

(** * Housekeeping: [cleanup_old_data] *)

Lemma filter_partition_length {A} (f : A -> bool) (l : list A) :
  length l
  = (length (List.filter (fun x => negb (f x)) l)
     + length (List.filter f l))%nat.
Proof.
  induction l as [|x l IH]; [reflexivity|].
  cbn. destruct (f x); cbn; lia.
Qed.

Lemma filter_nothing {A} (f : A -> bool) (l : list A) :
  (forall x, x ∈ l -> f x = true) -> List.filter f l = l.
Proof.
  induction l as [|x l IH]; intros H; [reflexivity|].
  cbn. rewrite (H x (list_elem_of_here _ _)).
  f_equal. apply IH. intros y Hy. apply H. now apply list_elem_of_further.
Qed.

Lemma filter_everything {A} (f : A -> bool) (l : list A) :
  (forall x, x ∈ l -> f x = false) -> List.filter f l = [].
Proof.
  induction l as [|x l IH]; intros H; [reflexivity|].
  cbn. rewrite (H x (list_elem_of_here _ _)).
  apply IH. intros y Hy. apply H. now apply list_elem_of_further.
Qed.

Lemma elem_of_List_filter {A} (f : A -> bool) (l : list A) x :
  x ∈ List.filter f l <-> x ∈ l /\ f x = true.
Proof. rewrite !list_elem_of_In. apply filter_In. Qed.

Lemma old_resolved_alert_false cutoff_date a :
  old_resolved_alert cutoff_date a = false <->
  is_resolved a = false \/ cutoff_date <= timestamp a.
Proof.
  unfold old_resolved_alert.
  rewrite andb_false_iff, Z.ltb_ge. tauto.
Qed.

(** [cleanup_old_data] deletes the readings older than thirty days and the
    resolved alerts older than thirty days, and nothing else: an open
    alert is never deleted, whatever its age, and the cache and the
    notifier are not touched. *)
Theorem cleanup_old_data_keeps now w :
  let cutoff_date := now - 30 * microseconds_per_day in
  let w' := run (cleanup_old_data now) w in
  (forall a, a ∈ alerts w' <->
     a ∈ alerts w /\ (is_resolved a = false \/ cutoff_date <= timestamp a))
  /\
  (forall r, r ∈ sensor_readings w' <->
     r ∈ sensor_readings w /\ cutoff_date <= sr_timestamp r) /\
  redis w' = redis w /\ log w' = log w /\
  alert_seq w' = alert_seq w /\ reading_seq w' = reading_seq w.
Proof.
  cbn. split; [|split; [|auto]].
  - intros a. rewrite elem_of_List_filter, negb_true_iff.
    rewrite old_resolved_alert_false. reflexivity.
  - intros r. rewrite elem_of_List_filter, negb_true_iff.
    unfold old_reading. rewrite Z.ltb_ge. reflexivity.
Qed.

(** The two numbers that [cleanup_old_data] returns are the numbers of
    rows that left the two tables; and a second cleanup, at the same
    instant or an earlier one, finds nothing to delete. *)
Theorem cleanup_old_data_counts now now' w :
  let w' := run (cleanup_old_data now) w in
  length (sensor_readings w)
  = (length (sensor_readings w') + fst (value (cleanup_old_data now) w))%nat
  /\
  length (alerts w)
  = (length (alerts w') + snd (value (cleanup_old_data now) w))%nat /\
  (now' <= now ->
   value (cleanup_old_data now') w' = (0%nat, 0%nat) /\
   run (cleanup_old_data now') w' = w').
Proof.
  cbn zeta. unfold value, run, cleanup_old_data. cbn [fst snd].
  split; [apply filter_partition_length|].
  split; [apply filter_partition_length|].
  intros Hle. cbn [sensor_readings alerts reading_seq alert_seq redis log].
  set (c := now - 30 * microseconds_per_day).
  set (c' := now' - 30 * microseconds_per_day).
  assert (Hc : c' <= c) by (subst c c'; lia).
  assert (Hr : forall r,
            r ∈ List.filter (fun r => negb (old_reading c r))
                  (sensor_readings w) ->
            old_reading c' r = false).
  { intros r Hr. apply elem_of_List_filter in Hr as [_ Hr].
    apply negb_true_iff in Hr. unfold old_reading in *.
    apply Z.ltb_ge. apply Z.ltb_ge in Hr. lia. }
  assert (Ha : forall a,
            a ∈ List.filter (fun a => negb (old_resolved_alert c a))
                  (alerts w) ->
            old_resolved_alert c' a = false).
  { intros a Ha. apply elem_of_List_filter in Ha as [_ Ha].
    apply negb_true_iff, old_resolved_alert_false in Ha.
    apply old_resolved_alert_false. destruct Ha; [auto|right; lia]. }
  rewrite (filter_everything (old_reading c') _ Hr).
  rewrite (filter_everything (old_resolved_alert c') _ Ha).
  split; [reflexivity|]. f_equal.
  - apply filter_nothing. intros r Hin. rewrite (Hr r Hin). reflexivity.
  - apply filter_nothing. intros a Hin. rewrite (Ha a Hin). reflexivity.
Qed.

(** Housekeeping does not disturb the cooldown: the gate answers after a
    cleanup as it did before, for every device, kind and instant. *)
Theorem cleanup_old_data_keeps_gate device_id0 alert_type0 now now' w :
  value (should_send_alert device_id0 alert_type0 now')
        (run (cleanup_old_data now) w)
  = value (should_send_alert device_id0 alert_type0 now') w.
Proof.
  unfold value, run, should_send_alert, cleanup_old_data.
  cbn [fst snd alerts].
  set (P := recent_unresolved device_id0 alert_type0 _).
  set (Q := fun a => negb (old_resolved_alert _ a)).
  assert (E : List.filter P (List.filter Q (alerts w))
              = List.filter P (alerts w)).
  { induction (alerts w) as [|a l IH]; [reflexivity|].
    cbn. destruct (Q a) eqn:Eq; cbn.
    - destruct (P a); [f_equal|]; exact IH.
    - assert (Pa : P a = false).
      { subst P Q. cbn in Eq. apply negb_false_iff in Eq.
        unfold old_resolved_alert in Eq.
        apply andb_true_iff in Eq as [_ Eq].
        unfold recent_unresolved. rewrite Eq. cbn.
        apply andb_false_r. }
      rewrite Pa. exact IH. }
  rewrite E. reflexivity.
Qed.

(** * Reading back: history and latest reading *)

#[global] Instance newest_first_total : Total newest_first.
Proof. intros r1 r2. unfold newest_first. lia. Qed.

#[global] Instance newest_first_trans : Transitive newest_first.
Proof. intros r1 r2 r3. unfold newest_first. lia. Qed.

Lemma take_subset {A} (n : nat) (l : list A) x : x ∈ take n l -> x ∈ l.
Proof.
  intros H. apply elem_of_take in H as (i & Hi & _).
  apply list_elem_of_lookup. eauto.
Qed.

(** The rows a query selects, sorted newest first. *)
Lemma sorted_rows_spec (P : SensorReading -> bool) (rows : list SensorReading) :
  StronglySorted newest_first (merge_sort newest_first (List.filter P rows))
  /\
  forall r, r ∈ merge_sort newest_first (List.filter P rows)
            <-> r ∈ rows /\ P r = true.
Proof.
  split; [apply StronglySorted_merge_sort; apply _|].
  intros r. rewrite merge_sort_Permutation. apply elem_of_List_filter.
Qed.

(** A sorted list cut at [n]: what is cut off is not newer than what is
    kept, and something is cut off only when [n] rows are kept. *)
Lemma take_sorted_newest (n : nat) (l : list SensorReading) r :
  StronglySorted newest_first l -> r ∈ l ->
  r ∈ take n l \/
  (length (take n l) = n /\
   forall r', r' ∈ take n l -> sr_timestamp r <= sr_timestamp r').
Proof.
  intros Hs Hr. rewrite <- (take_drop n l) in Hs, Hr.
  apply elem_of_app in Hr as [Hr|Hr]; [left; exact Hr|right].
  split.
  - rewrite length_take.
    destruct (decide (length l <= n)%nat) as [Hle|Hgt]; [|lia].
    rewrite (drop_ge l n Hle) in Hr. inversion Hr.
  - intros r' Hr'.
    apply (StronglySorted_app_1_elem_of _ _ _ r' r Hs Hr' Hr).
Qed.

(** [get_readings_history] returns at most [limit] dictionaries, newest
    first, each of a stored row of the device that is not older than
    [hours] hours, and changes nothing. *)
Theorem get_readings_history_sound device_id0 hours limit now w :
  let h := value (get_readings_history device_id0 hours limit now) w in
  (length h <= limit)%nat /\
  StronglySorted (fun d1 d2 => rr_timestamp d2 <= rr_timestamp d1) h /\
  (forall d, d ∈ h ->
     rr_device_id d = device_id0 /\
     now - hours * microseconds_per_hour <= rr_timestamp d /\
     exists r, r ∈ sensor_readings w /\ d = row_dict r) /\
  run (get_readings_history device_id0 hours limit now) w = w.
Proof.
  cbn zeta. unfold value, run, get_readings_history. cbn [fst snd].
  set (P := fun r => String.eqb (sr_device_id r) device_id0 && _).
  destruct (sorted_rows_spec P (sensor_readings w)) as [Hs Hin].
  split; [rewrite length_fmap, length_take; lia|].
  split.
  - apply (StronglySorted_fmap row_dict newest_first).
    + intros x y Hxy. exact Hxy.
    + rewrite <- (take_drop limit (merge_sort _ _)) in Hs.
      apply StronglySorted_app_1_l in Hs. exact Hs.
  - split; [|reflexivity].
    intros d Hd. apply list_elem_of_fmap in Hd as (r & -> & Hr).
    apply take_subset, Hin in Hr as [Hr HP].
    subst P. cbn in HP. apply andb_true_iff in HP as [H1 H2].
    apply String.eqb_eq in H1. apply Z.leb_le in H2.
    cbn. eauto.
Qed.

(** [get_readings_history] returns the newest rows: a stored row of the
    device within the window is either returned, or the limit is reached
    and every returned row is at least as new. *)
Theorem get_readings_history_newest device_id0 hours limit now w r :
  r ∈ sensor_readings w ->
  sr_device_id r = device_id0 ->
  now - hours * microseconds_per_hour <= sr_timestamp r ->
  let h := value (get_readings_history device_id0 hours limit now) w in
  row_dict r ∈ h \/
  (length h = limit /\
   forall d, d ∈ h -> sr_timestamp r <= rr_timestamp d).
Proof.
  intros Hr Hd Ht. cbn zeta.
  unfold value, get_readings_history. cbn [fst].
  set (P := fun r => String.eqb (sr_device_id r) device_id0 && _).
  destruct (sorted_rows_spec P (sensor_readings w)) as [Hs Hin].
  assert (Hr' : r ∈ merge_sort newest_first
                      (List.filter P (sensor_readings w))).
  { apply Hin. split; [exact Hr|]. subst P. cbn.
    apply andb_true_iff. split; [apply String.eqb_eq, Hd|apply Z.leb_le, Ht]. }
  destruct (take_sorted_newest limit _ r Hs Hr') as [Hk|[Hl Hn]].
  - left. apply list_elem_of_fmap. eauto.
  - right. split; [rewrite length_fmap; exact Hl|].
    intros d Hd'. apply list_elem_of_fmap in Hd' as (r' & -> & Hr'').
    cbn. apply Hn, Hr''.
Qed.

Lemma cache_key_of_inj a b : cache_key_of a = cache_key_of b -> a = b.
Proof. unfold cache_key_of. cbn. intros [= H]. exact H. Qed.

Lemma device_rows_spec device_id0 w :
  StronglySorted newest_first (device_rows device_id0 w) /\
  forall r, r ∈ device_rows device_id0 w
            <-> r ∈ sensor_readings w /\ sr_device_id r = device_id0.
Proof.
  unfold device_rows.
  destruct (sorted_rows_spec
              (fun r => String.eqb (sr_device_id r) device_id0)
              (sensor_readings w)) as [Hs Hin].
  split; [exact Hs|]. intros r. rewrite Hin, String.eqb_eq. reflexivity.
Qed.

(** What [get_latest_reading] answers when the cache gives nothing. *)
Lemma get_latest_reading_miss device_id0 now w :
  value (redis_get (cache_key_of device_id0) now) w = None ->
  get_latest_reading device_id0 now w
  = (match head (device_rows device_id0 w) with
     | Some reading => Some (RowReading (row_dict reading))
     | None => None
     end, w).
Proof.
  unfold value, get_latest_reading, mbind, db_bind.
  fold (cache_key_of device_id0).
  destruct (redis_get (cache_key_of device_id0) now w) as [cached w1] eqn:E.
  assert (Hw : w1 = w) by (unfold redis_get in E; congruence).
  subst w1. cbn [fst]. intros ->.
  destruct (head (device_rows device_id0 w)); reflexivity.
Qed.

(** What [get_latest_reading] answers when the cache has the reading. *)
Lemma get_latest_reading_hit device_id0 now rd w :
  value (redis_get (cache_key_of device_id0) now) w = Some rd ->
  get_latest_reading device_id0 now w = (Some (PlainReading rd), w).
Proof.
  unfold value, get_latest_reading, mbind, db_bind.
  fold (cache_key_of device_id0).
  destruct (redis_get (cache_key_of device_id0) now w) as [cached w1] eqn:E.
  assert (Hw : w1 = w) by (unfold redis_get in E; congruence).
  subst w1. cbn [fst]. intros ->. reflexivity.
Qed.

(** The newest row of a device that has a row. *)
Lemma head_device_rows device_id0 w r0 :
  r0 ∈ sensor_readings w -> sr_device_id r0 = device_id0 ->
  exists r, head (device_rows device_id0 w) = Some r /\
    r ∈ sensor_readings w /\ sr_device_id r = device_id0 /\
    forall r', r' ∈ sensor_readings w -> sr_device_id r' = device_id0 ->
               sr_timestamp r' <= sr_timestamp r.
Proof.
  intros H0 Hd0.
  destruct (device_rows_spec device_id0 w) as [Hs Hin].
  destruct (device_rows device_id0 w) as [|r rest] eqn:E.
  - assert (H : r0 ∈ @nil SensorReading) by (apply Hin; auto).
    inversion H.
  - exists r. pose proof (proj1 (Hin r) (list_elem_of_here _ _)) as [Hr Hd].
    split; [reflexivity|]. split; [exact Hr|]. split; [exact Hd|].
    intros r' Hr' Hd'.
    assert (H : r' ∈ r :: rest) by (apply Hin; auto).
    apply StronglySorted_cons in Hs as [Hall _].
    apply elem_of_cons in H as [->|H]; [lia|].
    rewrite Forall_forall in Hall. apply (Hall r' H).
Qed.

(** When the cache gives nothing at the instant of the call, because it has
    no entry for the device or because the entry has expired,
    [get_latest_reading] answers from the table: [None] exactly when the
    device has no row, and otherwise the dictionary of a row of the device
    that no other row of the device is newer than. *)
Theorem get_latest_reading_from_table device_id0 now w :
  value (redis_get (cache_key_of device_id0) now) w = None ->
  match value (get_latest_reading device_id0 now) w with
  | None =>
      forall r, r ∈ sensor_readings w -> sr_device_id r <> device_id0
  | Some (RowReading d) =>
      exists r, r ∈ sensor_readings w /\ d = row_dict r /\
        sr_device_id r = device_id0 /\
        forall r', r' ∈ sensor_readings w -> sr_device_id r' = device_id0 ->
                   sr_timestamp r' <= sr_timestamp r
  | Some (PlainReading _) => False
  end.
Proof.
  intros Hmiss. unfold value.
  rewrite (get_latest_reading_miss _ _ _ Hmiss). cbn [fst].
  destruct (head (device_rows device_id0 w)) as [r|] eqn:E.
  - destruct (device_rows_spec device_id0 w) as [_ Hin].
    assert (Hr : r ∈ device_rows device_id0 w).
    { destruct (device_rows device_id0 w); [discriminate|].
      injection E as ->. apply list_elem_of_here. }
    apply Hin in Hr as [Hr Hd].
    destruct (head_device_rows device_id0 w r Hr Hd)
      as (r1 & E1 & Hr1 & Hd1 & Hnew).
    rewrite E in E1. injection E1 as <-.
    exists r. auto.
  - intros r Hr Hd.
    destruct (head_device_rows device_id0 w r Hr Hd) as (r1 & E1 & _).
    congruence.
Qed.

Section ReadBackFacts.

Variable settings : Settings.
Variable float_of_str : string -> option pyfloat.
Variable driver_binds : pyval -> bool.
Variable quote : string -> string.
Variable format_3f : pyfloat -> string.
Variable Client : string -> string -> TwilioClient.

(** What [get_latest_reading] answers at the instant [at_] in a world where
    the reading [rd] of the device was stored at the instant [now]: the
    reading itself for 300 seconds, then the newest row of the device. *)
Lemma get_latest_reading_stored device_id0 now at_ rd r0 w :
  redis w !! cache_key_of device_id0
  = Some {| ce_value := rd;
            ce_expires := now + 300 * microseconds_per_second |} ->
  r0 ∈ sensor_readings w -> sr_device_id r0 = device_id0 ->
  (at_ < now + 300 * microseconds_per_second ->
   get_latest_reading device_id0 at_ w = (Some (PlainReading rd), w)) /\
  (now + 300 * microseconds_per_second <= at_ ->
   exists r,
     get_latest_reading device_id0 at_ w
     = (Some (RowReading (row_dict r)), w) /\
     r ∈ sensor_readings w /\ sr_device_id r = device_id0 /\
     forall r', r' ∈ sensor_readings w -> sr_device_id r' = device_id0 ->
                sr_timestamp r' <= sr_timestamp r).
Proof.
  intros Hc H0 Hd0. split; intros Hat.
  - apply get_latest_reading_hit. unfold value, redis_get. cbn [fst].
    rewrite Hc. cbn [ce_expires ce_value].
    destruct (Z.ltb_spec at_ (now + 300 * microseconds_per_second));
      [reflexivity|lia].
  - destruct (head_device_rows device_id0 w r0 H0 Hd0)
      as (r & E & Hr & Hd & Hnew).
    exists r. split; [|auto].
    rewrite get_latest_reading_miss, E; [reflexivity|].
    unfold value, redis_get. cbn [fst].
    rewrite Hc. cbn [ce_expires ce_value].
    destruct (Z.ltb_spec at_ (now + 300 * microseconds_per_second));
      [lia|reflexivity].
Qed.

(** What [save_reading] has saved at the instant [now] is what
    [get_latest_reading] gives back for the device, from the cache, at every
    instant before [now] plus 300 seconds; from then on the answer is the
    newest row of the device in the table, which now has the saved row.  For
    any other device the answer is at every instant the one from before. *)
Theorem get_latest_reading_after_save rd other now at_ w :
  bindable driver_binds (rd_status rd) = true ->
  let w' := run (save_reading settings driver_binds rd now) w in
  (at_ < now + 300 * microseconds_per_second ->
   value (get_latest_reading (rd_device_id rd) at_) w'
   = Some (PlainReading rd)) /\
  (now + 300 * microseconds_per_second <= at_ ->
   exists r,
     value (get_latest_reading (rd_device_id rd) at_) w'
     = Some (RowReading (row_dict r)) /\
     r ∈ sensor_readings w ++ [saved_row settings w rd] /\
     sr_device_id r = rd_device_id rd /\
     sr_timestamp (saved_row settings w rd) <= sr_timestamp r) /\
  (other <> rd_device_id rd ->
   value (get_latest_reading other at_) w'
   = value (get_latest_reading other at_) w).
Proof.
  intros B. cbn zeta. unfold run.
  rewrite (save_reading_stores _ _ _ _ _ B). cbn [snd].
  match goal with
  | |- context [value _ ?w1] => set (w' := w1)
  end.
  assert (Hin : saved_row settings w rd ∈ sensor_readings w').
  { subst w'. cbn [sensor_readings]. apply elem_of_app. right.
    apply list_elem_of_here. }
  destruct (get_latest_reading_stored (rd_device_id rd) now at_ rd
              (saved_row settings w rd) w') as [Hlive Hgone].
  { subst w'. cbn [redis]. apply lookup_insert_eq. }
  { exact Hin. }
  { reflexivity. }
  split; [|split].
  - intros Hat. unfold value. rewrite (Hlive Hat). reflexivity.
  - intros Hat. destruct (Hgone Hat) as (r & E & Hr & Hd & Hnew).
    exists r. unfold value. rewrite E. cbn [fst].
    split; [reflexivity|]. split; [exact Hr|]. split; [exact Hd|].
    apply Hnew; [exact Hin|reflexivity].
  - intros Hne. unfold value, get_latest_reading, mbind, db_bind, redis_get.
    subst w'. cbn [redis sensor_readings fst snd].
    fold (cache_key_of other).
    rewrite lookup_insert_ne.
    2: { intros H. apply cache_key_of_inj in H. congruence. }
    assert (E : device_rows other
                  {| sensor_readings :=
                       sensor_readings w ++ [saved_row settings w rd];
                     reading_seq := reading_seq w + 1;
                     alerts := alerts w; alert_seq := alert_seq w;
                     redis :=
                       <[cache_key_of (rd_device_id rd) :=
                           {| ce_value := rd;
                              ce_expires :=
                                now + 300 * microseconds_per_second |}]>
                         (redis w);
                     log := log w |}
                = device_rows other w).
    { unfold device_rows. cbn [sensor_readings].
      rewrite List.filter_app. cbn.
      assert (Hf : String.eqb (rd_device_id rd) other = false)
        by (apply String.eqb_neq; congruence).
      rewrite Hf, app_nil_r. reflexivity. }
    destruct (redis w !! cache_key_of other) as [entry|].
    + destruct (at_ <? ce_expires entry)%Z; [reflexivity|].
      cbn [fst]. rewrite E.
      destruct (head (device_rows other w)); reflexivity.
    + cbn [fst]. rewrite E.
      destruct (head (device_rows other w)); reflexivity.
Qed.

(** The dashboard keeps showing the last good reading while the cache
    holds it: after a refresh at the instant [now1] that fetched and
    stored a payload, a refresh whose fetch fails writes nothing and shows
    an error together with that same reading when it comes less than 300
    seconds later, and together with the newest stored row of the device
    when it comes after that. *)
Theorem dashboard_falls_back_to_last_reading http1 http2 phone1 phone2
    url1 url2 device_id0 now1 now2 raw_data rd w :
  fetch_device_status http1 url1 = Some raw_data ->
  normalize_reading float_of_str raw_data device_id0 now1 = Ok rd ->
  bindable driver_binds (rd_status rd) = true ->
  fetch_device_status http2 url2 = None ->
  let first := fetch_and_process settings float_of_str driver_binds quote
                 format_3f Client http1 None phone1 url1 device_id0 now1 in
  let second := fetch_and_process settings float_of_str driver_binds quote
                  format_3f Client http2 None phone2 url2 device_id0 now2 in
  value first w = (false, Some (PlainReading rd)) /\
  run second (run first w) = run first w /\
  (now2 < now1 + 300 * microseconds_per_second ->
   value second (run first w) = (true, Some (PlainReading rd))) /\
  (now1 + 300 * microseconds_per_second <= now2 ->
   exists r,
     value second (run first w) = (true, Some (RowReading (row_dict r))) /\
     r ∈ sensor_readings w ++ [saved_row settings w rd] /\
     sr_device_id r = device_id0 /\
     now1 <= sr_timestamp r).
Proof.
  intros H1 Hn B H2. cbn zeta.
  destruct (process_reading_stores settings float_of_str driver_binds quote
              format_3f Client phone1 raw_data device_id0 now1 rd w Hn B)
    as (Hv & Hs & Hr).
  destruct (normalize_reading_fields _ _ _ _ _ Hn) as [Hdev Hts].
  unfold value, run in Hv, Hs, Hr.
  assert (Hfirst : fetch_and_process settings float_of_str driver_binds
                     quote format_3f Client http1 None phone1 url1
                     device_id0 now1 w
                   = ((false, Some (PlainReading rd)),
                      snd (process_reading settings float_of_str
                             driver_binds quote format_3f Client phone1
                             raw_data device_id0 now1 w))).
  { unfold fetch_and_process. rewrite H1. unfold mbind, db_bind.
    destruct (process_reading _ _ _ _ _ _ _ _ _ _ w) as [res w1].
    cbn [fst snd] in *. subst res. reflexivity. }
  assert (Hsecond : forall w1,
            fetch_and_process settings float_of_str driver_binds quote
              format_3f Client http2 None phone2 url2 device_id0 now2 w1
            = ((true, fst (get_latest_reading device_id0 now2 w1)), w1)).
  { intros w1. unfold fetch_and_process. rewrite H2.
    unfold get_latest_reading, redis_get, mbind, db_bind.
    fold (cache_key_of device_id0).
    destruct (redis w1 !! cache_key_of device_id0) as [entry|].
    - destruct (now2 <? ce_expires entry)%Z; [reflexivity|].
      destruct (head (device_rows device_id0 w1)); reflexivity.
    - destruct (head (device_rows device_id0 w1)); reflexivity. }
  unfold value, run. rewrite Hfirst, Hsecond. cbn [fst snd].
  split; [reflexivity|]. split; [reflexivity|].
  set (w1 := snd (process_reading _ _ _ _ _ _ _ _ _ _ w)) in *.
  assert (Hin : saved_row settings w rd ∈ sensor_readings w1).
  { rewrite Hs. apply elem_of_app. right. apply list_elem_of_here. }
  destruct (get_latest_reading_stored device_id0 now1 now2 rd
              (saved_row settings w rd) w1 Hr Hin Hdev) as [Hlive Hgone].
  split.
  - intros Hat. rewrite (Hlive Hat). reflexivity.
  - intros Hat. destruct (Hgone Hat) as (r & E & Hr' & Hd & Hnew).
    exists r. rewrite E. cbn [fst].
    split; [reflexivity|]. rewrite <- Hs. split; [exact Hr'|].
    split; [exact Hd|].
    rewrite <- Hts. apply (Hnew _ Hin Hdev).
Qed.

End ReadBackFacts.

(** ** The URL of the device *)

Lemma rstrip_slash_app_slash s :
  rstrip_slash (s ++ "/")%string = rstrip_slash s.
Proof.
  induction s as [|c s IH]; [reflexivity|].
  change (String c s ++ "/")%string with (String c (s ++ "/"))%string.
  cbn [rstrip_slash]. rewrite IH. reflexivity.
Qed.

Lemma rstrip_slash_no_trailing s t : rstrip_slash s <> (t ++ "/")%string.
Proof.
  revert t. induction s as [|c s IH]; intros t.
  - destruct t; discriminate.
  - cbn [rstrip_slash].
    destruct (rstrip_slash s) as [|c' r] eqn:E.
    + destruct (Ascii.eqb c "/") eqn:Ec.
      * destruct t; discriminate.
      * destruct t as [|c0 t]; cbn.
        -- intros [= ->]. rewrite Ascii.eqb_refl in Ec. discriminate.
        -- destruct t; discriminate.
    + destruct t as [|c0 t]; cbn; [discriminate|].
      intros [= -> H]. apply (IH t). exact H.
Qed.

(** Slashes at the end of the device URL do not matter: the status is
    asked at the URL without them followed by [/status]. *)
Theorem fetch_device_status_trailing_slash http_get device_url :
  fetch_device_status http_get (device_url ++ "/")%string
  = fetch_device_status http_get device_url /\
  exists base,
    fetch_device_status http_get device_url
    = http_get (base ++ "/status")%string /\
    (forall t, base <> (t ++ "/")%string) /\
    exists slashes,
      device_url = (base ++ slashes)%string /\
      rstrip_slash slashes = "".
Proof.
  unfold fetch_device_status. split.
  - rewrite rstrip_slash_app_slash. reflexivity.
  - exists (rstrip_slash device_url). split; [reflexivity|].
    split; [apply rstrip_slash_no_trailing|].
    induction device_url as [|c s IH].
    + exists "". split; reflexivity.
    + destruct IH as (sl & Hs & Hsl). cbn [rstrip_slash].
      destruct (rstrip_slash s) as [|c' r] eqn:E.
      * destruct (Ascii.eqb c "/") eqn:Ec.
        -- apply Ascii.eqb_eq in Ec. subst c.
           exists (String "/" s). split; [reflexivity|].
           cbn [rstrip_slash]. rewrite E. reflexivity.
        -- exists s. split; [reflexivity|exact E].
      * exists sl. split; [|exact Hsl].
        change (String c (String c' r) ++ sl)%string
          with (String c (String c' r ++ sl))%string.
        f_equal. exact Hs.
Qed.

(** * The daily report *)

Lemma fle_refl (x : pyfloat) : is_nan x = false -> fle x x = true.
Proof.
  unfold fle, SFleb.
  destruct x as [sx|sx| |sx mx ex]; cbn; try destruct sx; try congruence.
  all: intros _; rewrite Z.compare_refl;
    fold (Pos.compare mx mx); rewrite Pos.compare_refl; reflexivity.
Qed.

Lemma flt_fle (x y : pyfloat) : flt x y = true -> fle x y = true.
Proof.
  unfold flt, fle, SFltb, SFleb.
  destruct (SFcompare x y) as [[]|]; congruence.
Qed.

Lemma fle_trans (x y z : pyfloat) :
  fle x y = true -> fle y z = true -> fle x z = true.
Proof.
  unfold fle, SFleb.
  destruct x as [sx|sx| |sx mx ex], y as [sy|sy| |sy my ey],
           z as [sz|sz| |sz mz ez]; simpl;
    try destruct sx; try destruct sy; try destruct sz; simpl;
    try congruence.
  all: destruct (Z.compare_spec ex ey), (Z.compare_spec ey ez),
         (Z.compare_spec ex ez); try lia; try congruence; subst.
  all: fold (Pos.compare mx my) (Pos.compare my mz) (Pos.compare mx mz).
  all: destruct (Pos.compare_spec mx my), (Pos.compare_spec my mz),
         (Pos.compare_spec mx mz); simpl; try lia; try congruence.
Qed.

(** The two scans of [min] and [max] over numbers: the result is an
    element that bounds all of them. *)
Lemma scan_min_spec (l : list pyfloat) : forall x,
  (forall y, y ∈ x :: l -> is_nan y = false) ->
  let m := fold_left (fun cur item => if flt item cur then item else cur)
                     l x in
  m ∈ x :: l /\ forall y, y ∈ x :: l -> fle m y = true.
Proof.
  induction l as [|z l IH]; intros x Hnum; cbn zeta.
  - cbn. split; [apply list_elem_of_here|].
    intros y Hy. apply list_elem_of_singleton in Hy as ->.
    apply fle_refl, Hnum, list_elem_of_here.
  - cbn [fold_left].
    set (cur := if flt z x then z else x).
    assert (Hcx : fle cur x = true /\ fle cur z = true /\
                  (cur = x \/ cur = z)).
    { subst cur. destruct (flt z x) eqn:E.
      - split; [apply flt_fle, E|]. split; [|auto].
        apply fle_refl, Hnum. in_list.
      - split; [apply fle_refl, Hnum; in_list|]. split; [|auto].
        destruct (fle_or_flt x z) as [H|H]; [| |exact H|congruence];
          apply Hnum; in_list. }
    destruct Hcx as (Hx & Hz & Hcur).
    destruct (IH cur) as [Hin Hle].
    { intros y Hy. apply Hnum.
      apply elem_of_cons in Hy as [->|Hy]; [|in_list].
      destruct Hcur as [-> | ->]; in_list. }
    cbn zeta in Hin, Hle. split.
    + apply elem_of_cons in Hin as [Hin|Hin]; [|in_list].
      rewrite Hin. destruct Hcur as [-> | ->]; in_list.
    + intros y Hy.
      pose proof (Hle cur (list_elem_of_here _ _)) as Hmc.
      apply elem_of_cons in Hy as [->|Hy];
        [exact (fle_trans _ _ _ Hmc Hx)|].
      apply elem_of_cons in Hy as [->|Hy];
        [exact (fle_trans _ _ _ Hmc Hz)|].
      apply Hle. in_list.
Qed.

Lemma scan_max_spec (l : list pyfloat) : forall x,
  (forall y, y ∈ x :: l -> is_nan y = false) ->
  let m := fold_left (fun cur item => if flt cur item then item else cur)
                     l x in
  m ∈ x :: l /\ forall y, y ∈ x :: l -> fle y m = true.
Proof.
  induction l as [|z l IH]; intros x Hnum; cbn zeta.
  - cbn. split; [apply list_elem_of_here|].
    intros y Hy. apply list_elem_of_singleton in Hy as ->.
    apply fle_refl, Hnum, list_elem_of_here.
  - cbn [fold_left].
    set (cur := if flt x z then z else x).
    assert (Hcx : fle x cur = true /\ fle z cur = true /\
                  (cur = x \/ cur = z)).
    { subst cur. destruct (flt x z) eqn:E.
      - split; [apply flt_fle, E|]. split; [|auto].
        apply fle_refl, Hnum. in_list.
      - split; [apply fle_refl, Hnum; in_list|]. split; [|auto].
        destruct (fle_or_flt z x) as [H|H]; [| |exact H|congruence];
          apply Hnum; in_list. }
    destruct Hcx as (Hx & Hz & Hcur).
    destruct (IH cur) as [Hin Hle].
    { intros y Hy. apply Hnum.
      apply elem_of_cons in Hy as [->|Hy]; [|in_list].
      destruct Hcur as [-> | ->]; in_list. }
    cbn zeta in Hin, Hle. split.
    + apply elem_of_cons in Hin as [Hin|Hin]; [|in_list].
      rewrite Hin. destruct Hcur as [-> | ->]; in_list.
    + intros y Hy.
      pose proof (Hle cur (list_elem_of_here _ _)) as Hmc.
      apply elem_of_cons in Hy as [->|Hy];
        [exact (fle_trans _ _ _ Hx Hmc)|].
      apply elem_of_cons in Hy as [->|Hy];
        [exact (fle_trans _ _ _ Hz Hmc)|].
      apply Hle. in_list.
Qed.

Section ReportFacts.

Variable py_sum : list pyfloat -> pyfloat.
Variable round_3 : pyfloat -> pyfloat.
Variable strftime_date : Z -> string.

Lemma send_daily_report_run device_id0 email now w :
  send_daily_report py_sum round_3 strftime_date device_id0 email now w
  = (let history := fst (get_readings_history device_id0 24 1000 now w) in
     match history with
     | [] => NoData
     | _ =>
         let ratios := rr_ratio <$> history in
         Report device_id0 (strftime_date now) (length history)
           (round_3 (fdiv (py_sum ratios)
                      (default zero
                         (float_of_int (Z.of_nat (length ratios))))))
           (round_3 (default zero (py_min ratios)))
           (round_3 (default zero (py_max ratios)))
           (length (List.filter rr_is_alert history))
     end, w).
Proof.
  unfold send_daily_report, mbind, db_bind.
  unfold get_readings_history. cbn [fst].
  destruct (row_dict <$> _); reflexivity.
Qed.

Lemma filter_length_le {A} (f : A -> bool) (l : list A) :
  (length (List.filter f l) <= length l)%nat.
Proof. rewrite (filter_partition_length f l). lia. Qed.

(** The daily report says "no data" exactly when the device has no
    reading of the last 24 hours; otherwise it counts the readings
    returned by the history, between 1 and 1000, and among them those
    flagged as alerts.  Nothing is written. *)
Theorem send_daily_report_counts device_id0 email now w :
  let history := value (get_readings_history device_id0 24 1000 now) w in
  match value (send_daily_report py_sum round_3 strftime_date device_id0
                 email now) w with
  | NoData =>
      forall r, r ∈ sensor_readings w -> sr_device_id r = device_id0 ->
                sr_timestamp r < now - 24 * microseconds_per_hour
  | Report d date n _ _ _ k =>
      d = device_id0 /\ date = strftime_date now /\
      n = length history /\ (1 <= n <= 1000)%nat /\
      k = length (List.filter rr_is_alert history) /\ (k <= n)%nat
  end /\
  run (send_daily_report py_sum round_3 strftime_date device_id0 email now)
      w = w.
Proof.
  cbn zeta. unfold value, run. rewrite send_daily_report_run.
  cbn [fst snd]. split; [|reflexivity].
  destruct (fst (get_readings_history device_id0 24 1000 now w))
    as [|d h] eqn:E; cbn zeta.
  - intros r Hr Hd.
    destruct (Z.lt_ge_cases (sr_timestamp r)
                (now - 24 * microseconds_per_hour)) as [Hlt|Hge];
      [exact Hlt|exfalso].
    unfold get_readings_history in E. cbn [fst] in E.
    apply fmap_nil_inv in E.
    set (P := fun r => String.eqb (sr_device_id r) device_id0 && _) in E.
    destruct (sorted_rows_spec P (sensor_readings w)) as [_ Hin].
    assert (Hr' : r ∈ merge_sort newest_first
                        (List.filter P (sensor_readings w))).
    { apply Hin. split; [exact Hr|]. subst P. cbn.
      apply andb_true_iff.
      split; [apply String.eqb_eq, Hd|apply Z.leb_le, Hge]. }
    destruct (merge_sort newest_first _) as [|x l]; [inversion Hr'|].
    discriminate.
  - split; [reflexivity|]. split; [reflexivity|]. split; [reflexivity|].
    split.
    + split; [cbn; lia|]. rewrite <- E.
      unfold get_readings_history. cbn [fst].
      rewrite length_fmap, length_take. lia.
    + split; [reflexivity|]. apply filter_length_le.
Qed.

(** When no returned ratio is NaN, the minimum and the maximum of the
    report are, before rounding, ratios of returned readings, and every
    returned ratio lies between them. *)
Theorem send_daily_report_min_max device_id0 email now w :
  let history := value (get_readings_history device_id0 24 1000 now) w in
  let ratios := rr_ratio <$> history in
  (forall x, x ∈ ratios -> is_nan x = false) ->
  match value (send_daily_report py_sum round_3 strftime_date device_id0
                 email now) w with
  | NoData => history = []
  | Report _ _ _ _ min_ratio max_ratio _ =>
      exists lo hi,
        lo ∈ ratios /\ hi ∈ ratios /\
        min_ratio = round_3 lo /\ max_ratio = round_3 hi /\
        forall x, x ∈ ratios -> fle lo x = true /\ fle x hi = true
  end.
Proof.
  cbn zeta. unfold value. rewrite send_daily_report_run. cbn [fst].
  intros Hnum.
  destruct (fst (get_readings_history device_id0 24 1000 now w))
    as [|d h] eqn:E; cbn zeta; [reflexivity|].
  cbn [fmap list_fmap] in *.
  destruct (scan_min_spec (rr_ratio <$> h) (rr_ratio d) Hnum) as [Hlo Hle].
  destruct (scan_max_spec (rr_ratio <$> h) (rr_ratio d) Hnum) as [Hhi Hge].
  cbn zeta in *.
  eexists _, _. split; [exact Hlo|]. split; [exact Hhi|].
  split; [reflexivity|]. split; [reflexivity|].
  intros x Hx. split; [apply Hle, Hx|apply Hge, Hx].
Qed.

End ReportFacts.

(** * The further theorems at concrete inputs *)

Lemma normalize_reading_total_witness :
  exists r, normalize_reading float_of_no_str raw_half "esp32_001" 0 = Ok r.
Proof.
  apply (normalize_reading_total float_of_no_str raw_half "esp32_001" 0).
  intros key v H. unfold raw_half in H.
  apply lookup_insert_Some in H as [[_ <-]|[_ H]]; [reflexivity|].
  apply lookup_singleton_Some in H as [_ <-]. reflexivity.
Defined.

Lemma resolve_alerts_reopens_gate_witness :
  value (should_send_alert "esp32_001" "spoiled" ten_minutes)
        (run (resolve_alerts "esp32_001" None) world_one_spoiled) = true.
Proof.
  apply (resolve_alerts_reopens_gate "esp32_001" "spoiled" None ten_minutes
           world_one_spoiled).
  left. reflexivity.
Defined.

Lemma second_create_alert_places_no_call_witness :
  let self := AlertService_init twilio_settings Client_up in
  let w1 := run (create_alert twilio_settings quote_id format_const self
                   "esp32_001" "spoiled" f0_4 (Some "+15550123") 0)
                empty_world in
  let w2 := run (create_alert twilio_settings quote_id format_const self
                   "esp32_001" "spoiled" f0_4 (Some "+15550123")
                   ten_minutes) w1 in
  length (log w1) = 2%nat /\ log w2 = log w1 /\ length (alerts w2) = 2%nat.
Proof.
  cbn zeta.
  destruct (second_create_alert_places_no_call twilio_settings quote_id
              format_const (AlertService_init twilio_settings Client_up)
              (AlertService_init twilio_settings Client_up)
              "esp32_001" "spoiled" f0_4 f0_4 (Some "+15550123")
              (Some "+15550123") 0 ten_minutes empty_world)
    as (Hlog & _ & Hlen).
  - vm_compute. discriminate.
  - split; [vm_compute; reflexivity|]. split; [exact Hlog|exact Hlen].
Defined.

Lemma create_alert_places_one_call_witness :
  let self := AlertService_init twilio_settings Client_up in
  log (run (create_alert twilio_settings quote_id format_const self
              "esp32_001" "spoiled" f0_4 (Some "+15550123") 0) empty_world)
  = [VoiceAlert "+15550123"
       "Food spoilage alert for device esp32_001. Current ratio is 0.000.";
     TwilioCall "+15550123" (Some "+15550100")
       ("https://twilio-call-jxu9.onrender.com/voice?context="
        ++ "Food spoilage alert for device esp32_001. "
        ++ "Current ratio is 0.000.")%string].
Proof.
  cbn zeta.
  destruct (create_alert_places_one_call twilio_settings quote_id
              format_const (Client_up "AC0001" "token")
              (AlertService_init twilio_settings Client_up)
              "esp32_001" "spoiled" f0_4 "+15550123" 0 empty_world)
    as (Hlog & _).
  - discriminate.
  - reflexivity.
  - reflexivity.
  - rewrite Hlog. reflexivity.
Defined.

Lemma no_credentials_no_call_witness :
  call_sid (value (create_alert default_settings quote_id format_const
                     (AlertService_init default_settings Client_up)
                     "esp32_001" "spoiled" f0_4 (Some "+15550123") 0)
                  empty_world) = None.
Proof.
  destruct (no_credentials_no_call default_settings quote_id format_const
              Client_up "esp32_001" "spoiled" f0_4 (Some "+15550123") 0
              empty_world) as (H & _).
  - left. reflexivity.
  - exact H.
Defined.

Lemma collect_device_data_persists_witness :
  length (sensor_readings world_one_spoiled) = 1%nat /\
  is_Some (redis world_one_spoiled !! cache_key_of "esp32_001") /\
  is_Some (value (redis_get (cache_key_of "esp32_001") one_minute)
                 world_one_spoiled) /\
  value (redis_get (cache_key_of "esp32_001") ten_minutes) world_one_spoiled
  = None.
Proof.
  edestruct (fun rd =>
               collect_device_data_persists default_settings float_of_no_str
                 binds_scalars quote_id format_const Client_up raw_spoiled
                 "esp32_001" 0 rd empty_world)
    as (_ & Hs & _ & _ & Hr & Hget).
  - vm_compute. reflexivity.
  - reflexivity.
  - unfold world_one_spoiled. rewrite Hs, Hr, !Hget.
    split; [reflexivity|]. split; [eauto|]. split; [|reflexivity].
    eexists. reflexivity.
Defined.

Lemma is_alert_flag_invariant_witness :
  Forall (flag_ok default_settings) (sensor_readings world_two_readings) /\
  length (sensor_readings world_two_readings) = 2%nat.
Proof.
  split; [|reflexivity].
  apply (is_alert_flag_invariant default_settings float_of_no_str
           binds_scalars quote_id format_const Client_up (Some raw_fresh)
           None raw_fresh "esp32_001" ten_minutes world_one_spoiled).
  apply Forall_singleton. reflexivity.
Defined.


(** A spoiled reading whose status is a dictionary: the dashboard raises
    the error of the database, and neither stores, records nor calls. *)
Example spoiled_reading_not_stored :
  process_reading twilio_settings float_of_no_str binds_scalars quote_id
    format_const Client_up (Some "+15550123") raw_spoiled_dict_status
    "esp32_001" 0 empty_world
  = (Raise DBAPIError, empty_world).
Proof. vm_compute. reflexivity. Qed.

Lemma unusable_payload_reads_as_spoiled_witness :
  value (collect_device_data default_settings float_of_no_str binds_scalars
           quote_id format_const Client_up (Some raw_garbage) "esp32_001" 0)
        empty_world = Success zero /\
  length (alerts (run (collect_device_data default_settings float_of_no_str
                         binds_scalars quote_id format_const Client_up
                         (Some raw_garbage) "esp32_001" 0)
                      empty_world)) = 1%nat.
Proof.
  destruct (unusable_payload_reads_as_spoiled default_settings
              float_of_no_str binds_scalars quote_id format_const Client_up
              raw_garbage "esp32_001" 0 empty_world)
    as (_ & Hv & _ & _ & Ha).
  1-4: vm_compute; auto.
  - reflexivity.
  - reflexivity.
  - split; [exact Hv|]. rewrite Ha. reflexivity.
Defined.

Lemma get_readings_history_newest_witness :
  length (value (get_readings_history "esp32_001" 24 1 ten_minutes)
                world_two_readings) = 1%nat /\
  length (sensor_readings world_two_readings) = 2%nat.
Proof.
  split; [|reflexivity].
  edestruct (get_readings_history_newest "esp32_001" 24 1 ten_minutes
               world_two_readings) as [Hin|[Hlen _]].
  - apply list_elem_of_here.
  - reflexivity.
  - vm_compute. discriminate.
  - vm_compute. reflexivity.
  - exact Hlen.
Defined.

Lemma get_latest_reading_from_table_witness :
  match value (get_latest_reading "esp32_001" one_hour) world_one_spoiled
  with
  | Some (RowReading d) => rr_device_id d = "esp32_001"
  | _ => False
  end.
Proof.
  pose proof (get_latest_reading_from_table "esp32_001" one_hour
                world_one_spoiled ltac:(vm_compute; reflexivity)) as H.
  destruct (value (get_latest_reading "esp32_001" one_hour)
                  world_one_spoiled) as [[d|d]|].
  - exact H.
  - destruct H as (r & _ & -> & Hd & _). exact Hd.
  - apply (H _ (list_elem_of_here _ _)). reflexivity.
Defined.

Lemma get_latest_reading_after_save_witness :
  let w' := run (save_reading default_settings binds_scalars reading_spoiled
                   0) empty_world in
  value (get_latest_reading "esp32_001" one_minute) w'
  = Some (PlainReading reading_spoiled) /\
  (exists r, value (get_latest_reading "esp32_001" ten_minutes) w'
             = Some (RowReading (row_dict r))) /\
  value (get_latest_reading "esp32_002" one_minute) w' = None.
Proof.
  cbn zeta. split; [|split].
  - destruct (get_latest_reading_after_save default_settings binds_scalars
                reading_spoiled "esp32_002" 0 one_minute empty_world)
      as (Hlive & _ & _).
    + reflexivity.
    + apply Hlive. reflexivity.
  - destruct (get_latest_reading_after_save default_settings binds_scalars
                reading_spoiled "esp32_002" 0 ten_minutes empty_world)
      as (_ & Hgone & _).
    + reflexivity.
    + destruct Hgone as (r & E & _); [vm_compute; discriminate|].
      exists r. exact E.
  - destruct (get_latest_reading_after_save default_settings binds_scalars
                reading_spoiled "esp32_002" 0 one_minute empty_world)
      as (_ & _ & Hother).
    + reflexivity.
    + rewrite Hother; [reflexivity|discriminate].
Defined.

Lemma dashboard_falls_back_to_last_reading_witness :
  let first := fetch_and_process default_settings float_of_no_str
                 binds_scalars quote_id format_const Client_up http_spoiled
                 None None "http://10.72.89.105/" "esp32_001" 0 in
  let soon := fetch_and_process default_settings float_of_no_str
                binds_scalars quote_id format_const Client_up http_down
                None None "http://10.72.89.105/" "esp32_001" one_minute in
  let late := fetch_and_process default_settings float_of_no_str
                binds_scalars quote_id format_const Client_up http_down
                None None "http://10.72.89.105/" "esp32_001" ten_minutes in
  value soon (run first empty_world) = (true, snd (value first empty_world))
  /\
  run soon (run first empty_world) = run first empty_world /\
  match snd (value late (run first empty_world)) with
  | Some (RowReading d) => rr_device_id d = "esp32_001"
  | _ => False
  end.
Proof.
  cbn zeta. split; [|split].
  - edestruct (fun rd => dashboard_falls_back_to_last_reading default_settings
                 float_of_no_str binds_scalars quote_id format_const
                 Client_up http_spoiled http_down None None
                 "http://10.72.89.105/" "http://10.72.89.105/" "esp32_001" 0
                 one_minute raw_spoiled rd empty_world)
      as (H1 & _ & Hsoon & _).
    + reflexivity.
    + vm_compute. reflexivity.
    + reflexivity.
    + reflexivity.
    + rewrite H1, Hsoon; reflexivity.
  - edestruct (fun rd => dashboard_falls_back_to_last_reading default_settings
                 float_of_no_str binds_scalars quote_id format_const
                 Client_up http_spoiled http_down None None
                 "http://10.72.89.105/" "http://10.72.89.105/" "esp32_001" 0
                 one_minute raw_spoiled rd empty_world)
      as (_ & H2 & _).
    + reflexivity.
    + vm_compute. reflexivity.
    + reflexivity.
    + reflexivity.
    + exact H2.
  - edestruct (fun rd => dashboard_falls_back_to_last_reading default_settings
                 float_of_no_str binds_scalars quote_id format_const
                 Client_up http_spoiled http_down None None
                 "http://10.72.89.105/" "http://10.72.89.105/" "esp32_001" 0
                 ten_minutes raw_spoiled rd empty_world)
      as (_ & _ & _ & Hlate).
    + reflexivity.
    + vm_compute. reflexivity.
    + reflexivity.
    + reflexivity.
    + destruct Hlate as (r & E & _ & Hd & _); [vm_compute; discriminate|].
      rewrite E. exact Hd.
Defined.

Lemma send_daily_report_min_max_witness :
  match value (send_daily_report sum_const round_id date_const "esp32_001"
                 "ops@example.org" ten_minutes) world_two_readings with
  | Report _ _ _ _ min_ratio max_ratio _ =>
      min_ratio = f0_4 /\ max_ratio = f0_9
  | NoData => False
  end.
Proof.
  pose proof (send_daily_report_min_max sum_const round_id date_const
                "esp32_001" "ops@example.org" ten_minutes
                world_two_readings) as H.
  cbn zeta in H.
  assert (E : rr_ratio <$> value (get_readings_history "esp32_001" 24 1000
                                    ten_minutes) world_two_readings
              = [f0_9; f0_4]) by (vm_compute; reflexivity).
  rewrite E in H.
  assert (Hnum : forall x, x ∈ [f0_9; f0_4] -> is_nan x = false).
  { intros x Hx. apply elem_of_cons in Hx as [->|Hx]; [reflexivity|].
    apply list_elem_of_singleton in Hx as ->. reflexivity. }
  specialize (H Hnum).
  destruct (value (send_daily_report _ _ _ _ _ _) world_two_readings)
    as [|d date n avg mn mx k].
  - apply (f_equal (fmap rr_ratio)) in H. rewrite E in H. discriminate.
  - destruct H as (lo & hi & Hlo & Hhi & -> & -> & Hall).
    assert (H4 : f0_4 ∈ [f0_9; f0_4])
      by apply list_elem_of_further, list_elem_of_here.
    assert (H9 : f0_9 ∈ [f0_9; f0_4]) by apply list_elem_of_here.
    split.
    + apply elem_of_cons in Hlo as [->|Hlo].
      * destruct (Hall f0_4 H4) as [C _]. vm_compute in C. discriminate.
      * apply list_elem_of_singleton in Hlo. exact Hlo.
    + apply elem_of_cons in Hhi as [->|Hhi]; [reflexivity|].
      apply list_elem_of_singleton in Hhi as ->.
      destruct (Hall f0_9 H9) as [_ C]. vm_compute in C. discriminate.
Defined.
